(** * ECRPolicy (CKV_AWS_32): the CloudFormation check of checkov

    A shallow embedding of
    [checkov/cloudformation/checks/resource/aws/ECRPolicy.py]:
    the Python values the check receives, the operations it applies to them
    (with the exceptions they raise), the state it writes
    ([self.evaluated_keys] and the [logging] records) and the two methods
    [scan_resource_conf] and [check_for_constrained_condition]. *)

From Stdlib Require Import List String Ascii ZArith Bool Lia DecimalString.
From Stdlib Require Import SpecFloat.
From Stdlib Require DecimalNat DecimalFacts.
Import ListNotations.
Open Scope string_scope.

Set Warnings "-register-all".

(** ** Python values *)

(** The values a parsed template or [json.loads] can hold.  A [dict] is an
    association list with string keys, in insertion order; a lookup takes the
    first binding of a key. *)
Inductive value : Type :=
| VNone
| VBool (b : bool)
| VInt (z : Z)
| VFloat (f : spec_float)
| VStr (s : string)
| VList (l : list value)
| VDict (d : list (string * value)).

Definition dict : Type := list (string * value).

(** The exceptions of the method's own operations, and the two that
    [json.loads] raises besides [JSONDecodeError]: [RecursionError] on deep
    nesting and a plain [ValueError] past the integer digit limit. *)
Inductive exn : Type :=
| AttributeError
| TypeError
| KeyError
| RecursionError
| ValueError.

(** The result of evaluating a Python expression or call. *)
Inductive outcome (A : Type) : Type :=
| Return (a : A)
| Raise (e : exn).
Arguments Return {A} a.
Arguments Raise {A} e.

(** [checkov.common.models.enums.CheckResult], the three members the check
    returns. *)
Inductive CheckResult : Type := PASSED | FAILED | UNKNOWN.

(** ** Monads: exceptions alone, and exceptions over the mutable state *)

Class Monad (m : Type -> Type) : Type := {
  ret : forall {A}, A -> m A;
  bind : forall {A B}, m A -> (A -> m B) -> m B
}.

Declare Scope py_scope.
Notation "x <- c ;; k" := (bind c (fun x => k))
  (at level 61, c at next level, right associativity) : py_scope.
Notation "c ;;; k" := (bind c (fun _ => k))
  (at level 61, right associativity) : py_scope.
Open Scope py_scope.

#[global] Instance outcome_monad : Monad outcome := {
  ret := fun A a => Return a;
  bind := fun A B c k => match c with Return a => k a | Raise e => Raise e end
}.

Inductive level : Type := INFO | ERROR.

(** What a call can read and write: the configuration object the caller
    passes by reference ([conf]), the attributes of the check object
    ([self.evaluated_keys], [self.entity_path]) and the records handed to
    [logging]. *)
Record store : Type := mkStore {
  conf : dict;
  evaluated_keys : list string;
  entity_path : string;
  logged : list (level * string)
}.

Definition M (A : Type) : Type := store -> outcome A * store.

#[global] Instance M_monad : Monad M := {
  ret := fun A a s => (Return a, s);
  bind := fun A B c k s =>
    match c s with
    | (Return a, s') => k a s'
    | (Raise e, s') => (Raise e, s')
    end
}.

(** An expression that touches no state. *)
Definition lift {A : Type} (o : outcome A) : M A := fun s => (o, s).

(** The argument [conf]: the method reads the caller's object. *)
Definition read_conf : M dict := fun s => (Return (conf s), s).

(** [self.entity_path]. *)
Definition read_entity_path : M string := fun s => (Return (entity_path s), s).

Definition with_keys (ks : list string) (s : store) : store :=
  mkStore (conf s) ks (entity_path s) (logged s).

Definition with_logged (records : list (level * string)) (s : store) : store :=
  mkStore (conf s) (evaluated_keys s) (entity_path s) (logged s ++ records).

(** [self.evaluated_keys = ks]. *)
Definition set_evaluated_keys (ks : list string) : M unit := fun s =>
  (Return tt, with_keys ks s).

(** [logging.info(msg)] and [logging.error(msg)]. *)
Definition logging (lv : level) (msg : string) : M unit := fun s =>
  (Return tt, with_logged [(lv, msg)] s).

(** ** Python operations *)

Fixpoint lookup (k : string) (d : dict) : option value :=
  match d with
  | [] => None
  | (k', v) :: d' => if k =? k' then Some v else lookup k d'
  end.

Definition is_zero (f : spec_float) : bool :=
  match f with S754_zero _ => true | _ => false end.

(** [bool(v)]: what [not v] negates. *)
Definition truthy (v : value) : bool :=
  match v with
  | VNone => false
  | VBool b => b
  | VInt z => negb (z =? 0)%Z
  | VFloat f => negb (is_zero f)
  | VStr s => negb (s =? "")
  | VList l => match l with [] => false | _ => true end
  | VDict d => match d with [] => false | _ => true end
  end.

Definition isinstance_dict (v : value) : bool :=
  match v with VDict _ => true | _ => false end.

Definition isinstance_list (v : value) : bool :=
  match v with VList _ => true | _ => false end.

Definition isinstance_str (v : value) : bool :=
  match v with VStr _ => true | _ => false end.

(** [d.get(k)] on the configuration, whose annotation is [dict[str, Any]]. *)
Definition dict_get (d : dict) (k : string) : value :=
  match lookup k d with Some v => v | None => VNone end.

(** [v.get(k)]: only a [dict] has the method. *)
Definition method_get (v : value) (k : string) : outcome value :=
  match v with
  | VDict d => Return (dict_get d k)
  | _ => Raise AttributeError
  end.

(** [v.keys()]: only a [dict] has the method. *)
Definition method_keys (v : value) : outcome (list string) :=
  match v with
  | VDict d => Return (map fst d)
  | _ => Raise AttributeError
  end.

Definition mem (k : string) (ks : list string) : bool :=
  existsb (String.eqb k) ks.
Arguments mem : simpl never.

(** [v == s] for a string literal [s]. *)
Definition eq_str (v : value) (s : string) : bool :=
  match v with VStr s' => s' =? s | _ => false end.

Fixpoint is_substring (needle hay : string) : bool :=
  prefix needle hay
  || match hay with
     | EmptyString => false
     | String _ hay' => is_substring needle hay'
     end.

(** [k in v] for a string [k]: a key of a [dict], an element of a [list], a
    substring of a [str]; the other values are not containers. *)
Definition contains (k : string) (v : value) : outcome bool :=
  match v with
  | VDict d => Return (mem k (map fst d))
  | VList l => Return (existsb (fun x => eq_str x k) l)
  | VStr s => Return (is_substring k s)
  | _ => Raise TypeError
  end.

(** [v[k]] for a string [k]: a [list] and a [str] take integer indices only,
    the other values are not subscriptable. *)
Definition getitem (v : value) (k : string) : outcome value :=
  match v with
  | VDict d => match lookup k d with Some x => Return x | None => Raise KeyError end
  | _ => Raise TypeError
  end.

Fixpoint chars (s : string) : list value :=
  match s with
  | EmptyString => []
  | String c s' => VStr (String c EmptyString) :: chars s'
  end.

(** What [enumerate(v)] goes through: the elements of a [list], the
    characters of a [str] (each a one-character [str]), the keys of a
    [dict]; the other values are not iterable. *)
Definition iterate (v : value) : outcome (list value) :=
  match v with
  | VList l => Return l
  | VStr s => Return (chars s)
  | VDict d => Return (map (fun kv => VStr (fst kv)) d)
  | _ => Raise TypeError
  end.

(** [str(n)] of an index, as an f-string writes it. *)
Definition str_of_nat (n : nat) : string :=
  NilZero.string_of_uint (Nat.to_uint n).

(** ** The check *)

(** The f-string of line 52. *)
Definition statement_key (statement_index : nat) : string :=
  "Properties/RepositoryPolicyText/Statement/["
    ++ str_of_nat statement_index ++ "]/Principal".

(** The f-string of line 59. *)
Definition indexed_key (evaluated_key : string) (principal_index : nat) : string :=
  evaluated_key ++ "/[" ++ str_of_nat principal_index ++ "]/".

(** [check_for_constrained_condition(self, statement)]: the method reads
    nothing but its argument. *)
Definition check_for_constrained_condition (statement : value) : outcome bool :=
  has_condition <- contains "Condition" statement ;;
  if has_condition : bool then
    condition <- getitem statement "Condition" ;;
    string_equals <-
      (c1 <- contains "StringEquals" condition ;;
       if c1 : bool then getitem condition "StringEquals"
       else
         c2 <- contains "ForAllValues:StringEquals" condition ;;
         if c2 : bool then getitem condition "ForAllValues:StringEquals"
         else
           c3 <- contains "ForAnyValue:StringEquals" condition ;;
           if c3 : bool then getitem condition "ForAnyValue:StringEquals"
           else ret VNone) ;;
    if isinstance_dict string_equals then
      has_org <- contains "aws:PrincipalOrgID" string_equals ;;
      if has_org : bool then ret true else ret false
    else ret false
  else ret false.

(** The body of the inner [for] loop over [enumerate(principal_block)];
    [Some r] is an early [return r], [None] the end of the loop. *)
Fixpoint scan_principals (statement principal_block : value)
    (evaluated_key : string) (principal_index : nat) (entries : list value)
    : M (option CheckResult) :=
  match entries with
  | [] => ret None
  | principal :: entries' =>
      hit <- (if eq_str principal "*"
              then constrained <- lift (check_for_constrained_condition statement) ;;
                   ret (negb constrained)
              else ret false) ;;
      if hit : bool then
        (if isinstance_list principal_block
         then set_evaluated_keys [indexed_key evaluated_key principal_index]
         else set_evaluated_keys [evaluated_key]) ;;;
        ret (Some FAILED)
      else
        scan_principals statement principal_block evaluated_key
                        (S principal_index) entries'
  end.

(** One iteration of the outer [for] loop. *)
Definition scan_statement (statement_index : nat) (statement : value)
    : M (option CheckResult) :=
  keys <- lift (method_keys statement) ;;
  if mem "Principal" keys then
    principal_block <- lift (getitem statement "Principal") ;;
    let evaluated_key := statement_key statement_index in
    has_aws <- (if isinstance_dict principal_block
                then lift (contains "AWS" principal_block)
                else ret false) ;;
    block_key <- (if has_aws : bool
                  then aws <- lift (getitem principal_block "AWS") ;;
                       ret (aws, evaluated_key ++ "/AWS")
                  else ret (principal_block, evaluated_key)) ;;
    entries <- lift (iterate (fst block_key)) ;;
    scan_principals statement (fst block_key) (snd block_key) 0 entries
  else ret None.

(** The outer [for] loop over [enumerate(policy_text["Statement"])]. *)
Fixpoint scan_statements (statement_index : nat) (statements : list value)
    : M (option CheckResult) :=
  match statements with
  | [] => ret None
  | statement :: statements' =>
      r <- scan_statement statement_index statement ;;
      match r with
      | Some v => ret (Some v)
      | None => scan_statements (S statement_index) statements'
      end
  end.

(** The f-string of line 42; the source writes [$] before the braces. *)
Definition variable_message (policy_text path : string) : string :=
  "Encountered variable expression " ++ policy_text
    ++ " in resource $" ++ path.

(** The f-string of line 45. *)
Definition malformed_message (policy_text path e : string) : string :=
  "Malformed policy configuration " ++ policy_text
    ++ " of resource " ++ path ++ String "010"%char e.

(** [json.loads] returns a value, raises [JSONDecodeError] with a message,
    or raises another exception, which line 38 does not catch. *)
Inductive json_result : Type :=
| Parsed (v : value)
| JSONDecodeError (msg : string)
| JSONRaises (e : exn).

(** Line 28. *)
Definition default_evaluated_keys : list string :=
  ["Properties/RepositoryPolicyText/Statement"].

Section Check.

(** [json.loads] of the Python library. *)
Variable json_loads : string -> json_result.

(** [re.match(SLS_DEFAULT_VAR_PATTERN, s)] as a truth value; the pattern is a
    constant of [checkov.common.models.consts]. *)
Variable match_sls_var : string -> bool.

(** Lines 35-47: the string case of [policy_text].  [inl] is the value the
    method goes on with, [inr] an early [return]. *)
Definition load_policy_text (policy_text : value) : M (value + CheckResult) :=
  match policy_text with
  | VStr s =>
      match json_loads s with
      | Parsed v => ret (inl v)
      | JSONDecodeError e =>
          path <- read_entity_path ;;
          (if match_sls_var s
           then logging INFO (variable_message s path)
           else logging ERROR (malformed_message s path e)) ;;;
          ret (inr UNKNOWN)
      | JSONRaises e => lift (Raise e)
      end
  | _ => ret (inl policy_text)
  end.

(** Lines 48-63. *)
Definition scan_policy (policy_text : value) : M CheckResult :=
  keys <- lift (method_keys policy_text) ;;
  is_list <- (if mem "Statement" keys
              then statements <- lift (getitem policy_text "Statement") ;;
                   ret (isinstance_list statements)
              else ret false) ;;
  if is_list : bool then
    statements <- lift (getitem policy_text "Statement") ;;
    entries <- lift (iterate statements) ;;
    r <- scan_statements 0 entries ;;
    match r with
    | Some v => ret v
    | None => ret PASSED
    end
  else ret PASSED.

(** [scan_resource_conf(self, conf)], lines 28-63. *)
Definition scan_resource_conf : M CheckResult :=
  set_evaluated_keys default_evaluated_keys ;;;
  conf <- read_conf ;;
  let properties := dict_get conf "Properties" in
  if negb (truthy properties) || negb (isinstance_dict properties)
  then ret PASSED
  else
    policy_text <- lift (method_get properties "RepositoryPolicyText") ;;
    if negb (truthy policy_text) then ret PASSED
    else
      loaded <- load_policy_text policy_text ;;
      match loaded with
      | inr v => ret v
      | inl policy_text => scan_policy policy_text
      end.

End Check.

(** ** What a call computes

    The loops and the method as functions of the values alone: the state a
    call leaves behind is the state it found with [evaluated_keys] replaced
    and the diagnostics appended ([scan_resource_conf_run] below). *)

(** The index of the first entry equal to ["*"]. *)
Fixpoint first_star (entries : list value) : option nat :=
  match entries with
  | [] => None
  | p :: entries' =>
      if eq_str p "*" then Some 0 else option_map S (first_star entries')
  end.

(** The block lines 51-55 leave in [principal_block], and whether it came
    from under an [AWS] key; [None] when the statement has no [Principal]. *)
Definition scanned_block (statement : value) : outcome (option (value * bool)) :=
  match statement with
  | VDict d =>
      match lookup "Principal" d with
      | None => Return None
      | Some (VDict p) =>
          match lookup "AWS" p with
          | Some aws => Return (Some (aws, true))
          | None => Return (Some (VDict p, false))
          end
      | Some block => Return (Some (block, false))
      end
  | _ => Raise AttributeError
  end.

(** The key lines 52-61 report for entry [j] of statement [i]. *)
Definition failed_key (i : nat) (aws : bool) (block : value) (j : nat) : string :=
  let evaluated_key :=
    if aws then statement_key i ++ "/AWS" else statement_key i in
  if isinstance_list block then indexed_key evaluated_key j else evaluated_key.

(** Lines 56-62 for the block [b] of a statement. *)
Definition block_summary (i : nat) (statement b : value) (aws : bool)
    : outcome (option string) :=
  match iterate b with
  | Raise e => Raise e
  | Return entries =>
      match first_star entries with
      | None => Return None
      | Some j =>
          match check_for_constrained_condition statement with
          | Raise e => Raise e
          | Return true => Return None
          | Return false => Return (Some (failed_key i aws b j))
          end
      end
  end.

(** One statement: [Return None] goes on to the next one, [Return (Some k)]
    is [FAILED] at key [k]. *)
Definition statement_summary (i : nat) (statement : value)
    : outcome (option string) :=
  match scanned_block statement with
  | Raise e => Raise e
  | Return None => Return None
  | Return (Some (block, aws)) =>
      match iterate block with
      | Raise e => Raise e
      | Return entries =>
          match first_star entries with
          | None => Return None
          | Some j =>
              match check_for_constrained_condition statement with
              | Raise e => Raise e
              | Return true => Return None
              | Return false => Return (Some (failed_key i aws block j))
              end
          end
      end
  end.

Fixpoint statements_summary (i : nat) (statements : list value)
    : outcome (option string) :=
  match statements with
  | [] => Return None
  | statement :: statements' =>
      match statement_summary i statement with
      | Raise e => Raise e
      | Return (Some k) => Return (Some k)
      | Return None => statements_summary (S i) statements'
      end
  end.

Definition policy_summary (policy_text : value) : outcome (option string) :=
  match policy_text with
  | VDict d =>
      match lookup "Statement" d with
      | Some (VList statements) => statements_summary 0 statements
      | _ => Return None
      end
  | _ => Raise AttributeError
  end.

(** How a summary of a loop settles the call's state. *)
Definition settle (o : outcome (option string)) (s : store)
    : outcome (option CheckResult) * store :=
  match o with
  | Return None => (Return None, s)
  | Return (Some k) => (Return (Some FAILED), with_keys [k] s)
  | Raise e => (Raise e, s)
  end.

Definition conclude (o : outcome (option string)) (s : store)
    : outcome CheckResult * store :=
  match o with
  | Return None => (Return PASSED, s)
  | Return (Some k) => (Return FAILED, with_keys [k] s)
  | Raise e => (Raise e, s)
  end.

(** Where lines 29-47 end: without a policy, with a string [json.loads]
    rejects, with an exception of [json.loads] that leaves the method, or
    with the working document. *)
Inductive policy_source : Type :=
| NoPolicy
| Unparsed (policy_text msg : string)
| Escaped (e : exn)
| Document (policy_text : value).

Section Summary.

Variable json_loads : string -> json_result.
Variable match_sls_var : string -> bool.

Definition policy_of (c : dict) : policy_source :=
  match dict_get c "Properties" with
  | VDict ((_ :: _) as properties) =>
      let policy_text := dict_get properties "RepositoryPolicyText" in
      if truthy policy_text then
        match policy_text with
        | VStr s =>
            match json_loads s with
            | Parsed v => Document v
            | JSONDecodeError msg => Unparsed s msg
            | JSONRaises e => Escaped e
            end
        | _ => Document policy_text
        end
      else NoPolicy
  | _ => NoPolicy
  end.

(** The result of a call and the evaluated keys it leaves. *)
Definition summary (c : dict) : outcome CheckResult * list string :=
  match policy_of c with
  | NoPolicy => (Return PASSED, default_evaluated_keys)
  | Unparsed _ _ => (Return UNKNOWN, default_evaluated_keys)
  | Escaped e => (Raise e, default_evaluated_keys)
  | Document policy_text =>
      match policy_summary policy_text with
      | Return None => (Return PASSED, default_evaluated_keys)
      | Return (Some k) => (Return FAILED, [k])
      | Raise e => (Raise e, default_evaluated_keys)
      end
  end.

(** The records a call hands to [logging]. *)
Definition diagnostics (c : dict) (path : string) : list (level * string) :=
  match policy_of c with
  | Unparsed s msg =>
      if match_sls_var s
      then [(INFO, variable_message s path)]
      else [(ERROR, malformed_message s path msg)]
  | _ => []
  end.

End Summary.

(** ** The predicates of the claims *)

(** The three condition operators, in the order the method tries them. *)
Definition condition_operators : list string :=
  ["StringEquals"; "ForAllValues:StringEquals"; "ForAnyValue:StringEquals"].

(** The value of the first key of [ks] that [d] binds. *)
Fixpoint first_present (ks : list string) (d : dict) : option value :=
  match ks with
  | [] => None
  | k :: ks' =>
      match lookup k d with
      | Some v => Some v
      | None => first_present ks' d
      end
  end.

(** A mapping that has the key [aws:PrincipalOrgID]. *)
Definition has_org_id (v : value) : bool :=
  match v with
  | VDict d => mem "aws:PrincipalOrgID" (map fst d)
  | _ => false
  end.

(** The statement is a mapping with a [Condition] mapping in which the first
    operator present holds a mapping with the key [aws:PrincipalOrgID]. *)
Definition org_constrained (statement : value) : bool :=
  match statement with
  | VDict st =>
      match lookup "Condition" st with
      | Some (VDict condition) =>
          match first_present condition_operators condition with
          | Some v => has_org_id v
          | None => false
          end
      | _ => false
      end
  | _ => false
  end.

(** The block has an entry equal to ["*"]: a bare string is its only entry,
    a sequence has its elements, a mapping its keys. *)
Definition wildcard_entry (block : value) : bool :=
  match block with
  | VStr s => s =? "*"
  | VList l => existsb (fun p => eq_str p "*") l
  | VDict d => mem "*" (map fst d)
  | _ => false
  end.

(** A bare string is either ["*"] or free of the character [*]. *)
Definition plain_block (block : value) : bool :=
  match block with
  | VStr s => (s =? "*") || negb (is_substring "*" s)
  | _ => true
  end.

Definition plain_statement (statement : value) : bool :=
  match scanned_block statement with
  | Return (Some (block, _)) => plain_block block
  | _ => true
  end.

(** The statement has a wildcard entry and no qualifying condition. *)
Definition open_wildcard (statement : value) : bool :=
  match scanned_block statement with
  | Return (Some (block, _)) =>
      wildcard_entry block && negb (org_constrained statement)
  | _ => false
  end.

(** The statements of a policy document: the elements of its [Statement]
    when the document is a mapping that holds a sequence there. *)
Definition statements_of (policy_text : value) : list value :=
  match policy_text with
  | VDict d =>
      match lookup "Statement" d with
      | Some (VList statements) => statements
      | _ => []
      end
  | _ => []
  end.

Definition iterable (v : value) : bool :=
  match v with
  | VStr _ | VList _ | VDict _ => true
  | _ => false
  end.

(** A statement the scan can read: a mapping whose scanned principal block
    is a string, a sequence or a mapping, and whose [Condition], when it has
    one, is a mapping. *)
Definition shaped_statement (statement : value) : bool :=
  match statement with
  | VDict d =>
      match scanned_block statement with
      | Return (Some (block, _)) => iterable block
      | _ => true
      end
      && match lookup "Condition" d with
         | Some condition => isinstance_dict condition
         | None => true
         end
  | _ => false
  end.

Definition shaped_document (policy_text : value) : bool :=
  isinstance_dict policy_text
  && forallb shaped_statement (statements_of policy_text).

(** A statement the scan passes over: without a [Principal], or with a
    block whose entries hold no ["*"], or with a qualifying condition. *)
Definition safe (statement : value) : bool :=
  match scanned_block statement with
  | Return None => true
  | Return (Some (block, _)) =>
      match iterate block with
      | Return entries =>
          negb (existsb (fun p => eq_str p "*") entries)
          || org_constrained statement
      | Raise _ => false
      end
  | Raise _ => false
  end.

(** The statement's [Principal] is a mapping with an [AWS] key. *)
Definition principal_has_aws (statement : value) : bool :=
  match statement with
  | VDict d =>
      match lookup "Principal" d with
      | Some (VDict p) => mem "AWS" (map fst p)
      | _ => false
      end
  | _ => false
  end.

Definition no_properties (c : dict) : Prop :=
  lookup "Properties" c = None
  \/ exists v : value,
       lookup "Properties" c = Some v /\ isinstance_dict v = false.

Definition no_policy_text (c : dict) : Prop :=
  exists properties : dict,
    lookup "Properties" c = Some (VDict properties)
    /\ (lookup "RepositoryPolicyText" properties = None
        \/ exists v : value,
             lookup "RepositoryPolicyText" properties = Some v
             /\ truthy v = false).

Section Documents.

Variable json_loads : string -> json_result.

Definition has_open_wildcard (c : dict) : bool :=
  match policy_of json_loads c with
  | Document policy_text => existsb open_wildcard (statements_of policy_text)
  | _ => false
  end.

Definition plain_strings (c : dict) : bool :=
  match policy_of json_loads c with
  | Document policy_text => forallb plain_statement (statements_of policy_text)
  | _ => true
  end.

(** A configuration the call can read to the end: [json.loads] raised
    nothing that line 38 lets through, and the working document, when
    there is one, is shaped. *)
Definition well_shaped (c : dict) : bool :=
  match policy_of json_loads c with
  | Document policy_text => shaped_document policy_text
  | Escaped _ => false
  | _ => true
  end.

(** The working document is a mapping without a [Statement] key, or with a
    [Statement] that is not a sequence. *)
Definition no_statement_list (c : dict) : Prop :=
  exists d : dict,
    policy_of json_loads c = Document (VDict d)
    /\ (lookup "Statement" d = None
        \/ exists v : value,
             lookup "Statement" d = Some v /\ isinstance_list v = false).

End Documents.

(** ** Definitions for the further properties *)

(** Lines 72-84 of [check_for_constrained_condition], for the value
    [condition] of [statement["Condition"]]. *)
Definition constrained_by (condition : value) : outcome bool :=
  string_equals <-
    (c1 <- contains "StringEquals" condition ;;
     if c1 : bool then getitem condition "StringEquals"
     else
       c2 <- contains "ForAllValues:StringEquals" condition ;;
       if c2 : bool then getitem condition "ForAllValues:StringEquals"
       else
         c3 <- contains "ForAnyValue:StringEquals" condition ;;
         if c3 : bool then getitem condition "ForAnyValue:StringEquals"
         else ret VNone) ;;
  if isinstance_dict string_equals then
    has_org <- contains "aws:PrincipalOrgID" string_equals ;;
    if has_org : bool then ret true else ret false
  else ret false.

Definition is_digit (c : ascii) : bool :=
  match c with
  | "0" | "1" | "2" | "3" | "4" | "5" | "6" | "7" | "8" | "9" => true
  | _ => false
  end%char.

Fixpoint all_digits (s : string) : bool :=
  match s with
  | EmptyString => true
  | String c s' => is_digit c && all_digits s'
  end.

(** What follows [Principal] in a reported key. *)
Definition key_tail (aws is_list : bool) (j : nat) : string :=
  (if aws then "/AWS" else "")
    ++ (if is_list then "/[" ++ str_of_nat j ++ "]/" else "").

(** ** Sample configurations *)

(** A stand-in for [json.loads] that agrees with it on the strings the
    samples pass to it (["[1]"], ["{}"], ["{not valid json"], the empty
    string and ["${self:custom.policy}"]); any other string is rejected. *)
Definition sample_json_loads (s : string) : json_result :=
  if s =? "[1]" then Parsed (VList [VInt 1])
  else if s =? "{}" then Parsed (VDict [])
  else if s =? "{not valid json"
  then JSONDecodeError
         "Expecting property name enclosed in double quotes: line 1 column 2 (char 1)"
  else JSONDecodeError "Expecting value: line 1 column 1 (char 0)".

(** A stand-in for the placeholder pattern: it matches the one placeholder
    the samples use. *)
Definition sample_match_sls_var (s : string) : bool :=
  s =? "${self:custom.policy}".

(** An [AWS::ECR::Repository] resource with the given policy text. *)
Definition resource (policy_text : value) : dict :=
  [("Type", VStr "AWS::ECR::Repository");
   ("Properties", VDict [("RepositoryName", VStr "repo");
                         ("RepositoryPolicyText", policy_text)])].

(** A policy document with the given statements. *)
Definition policy (statements : list value) : value :=
  VDict [("Version", VStr "2012-10-17"); ("Statement", VList statements)].

(** An [Allow] statement for the given principal, without a condition. *)
Definition allow (principal : value) : value :=
  VDict [("Effect", VStr "Allow"); ("Principal", principal);
         ("Action", VStr "ecr:*")].

(** The state of a call on configuration [c]. *)
Definition fresh (c : dict) : store :=
  mkStore c [] "AWS::ECR::Repository.repo" [].

(** A call with the stand-ins on a fresh state. *)
Definition sample_Evaluate (c : dict) : outcome CheckResult * store :=
  scan_resource_conf sample_json_loads sample_match_sls_var (fresh c).

(** A wildcard statement whose [StringEquals] lacks the organisation key
    while a later operator has it. *)
Definition shadowed : value :=
  VDict [("Effect", VStr "Allow"); ("Principal", VStr "*");
         ("Condition",
          VDict [("StringEquals",
                  VDict [("aws:SourceAccount", VStr "111111111111")]);
                 ("ForAnyValue:StringEquals",
                  VDict [("aws:PrincipalOrgID", VStr "o-xxxxxxxxxx")])])].

(** A wildcard statement narrowed to an organisation. *)
Definition constrained : value :=
  VDict [("Effect", VStr "Allow"); ("Principal", VStr "*");
         ("Condition",
          VDict [("StringEquals",
                  VDict [("aws:PrincipalOrgID", VStr "o-xxxxxxxxxx")])])].

(** Two safe statements, then one whose second entry is the first ["*"];
    a third entry ["*"], a statement that is a number and another open
    statement follow. *)
Definition crowded : dict :=
  resource (policy [VDict [("Effect", VStr "Allow")];
                    constrained;
                    allow (VDict [("AWS", VList [VStr "111111111111";
                                                 VStr "*"; VStr "*"])]);
                    VInt 7;
                    allow (VStr "*")]).

(** The double quote, which a string literal cannot hold. *)
Definition dq : string := String "034"%char "".

(** The JSON text of a policy with one open wildcard statement. *)
Definition wildcard_policy_json : string :=
  "{" ++ dq ++ "Statement" ++ dq ++ ": [{" ++ dq ++ "Principal" ++ dq
      ++ ": " ++ dq ++ "*" ++ dq ++ "}]}".

(** [sample_json_loads] extended with that text. *)
Definition sample_json_loads_policy (s : string) : json_result :=
  if s =? wildcard_policy_json
  then Parsed (VDict [("Statement", VList [VDict [("Principal", VStr "*")]])])
  else sample_json_loads s.

(** [c * n]: the character repeated [n] times. *)
Fixpoint replicate (n : nat) (c : ascii) : string :=
  match n with
  | 0 => ""
  | S n' => String c (replicate n' c)
  end.

(** A number of 5000 digits, past the integer digit limit of [json.loads],
    and 100000 opening brackets, past its recursion limit. *)
Definition long_number : string := replicate (50 * 100) "1".

Definition deep_nesting : string := replicate (1000 * 100) "[".

(** [sample_json_loads] extended with these two texts, on which
    [json.loads] raises [ValueError] and [RecursionError]. *)
Definition sample_json_loads_limits (s : string) : json_result :=
  if s =? long_number then JSONRaises ValueError
  else if s =? deep_nesting then JSONRaises RecursionError
  else sample_json_loads s.

(** A [Deny] statement for everyone. *)
Definition deny_all : dict :=
  [("Sid", VStr "DenyAll"); ("Effect", VStr "Deny"); ("Principal", VStr "*");
   ("Action", VStr "ecr:*")].

(** A statement that names a service with a wildcard. *)
Definition any_service : dict :=
  [("Effect", VStr "Allow"); ("Principal", VDict [("Service", VStr "*")]);
   ("Condition", VNone)].

(** A wildcard statement whose [Condition] is left empty. *)
Definition empty_condition : dict :=
  [("Effect", VStr "Allow"); ("Principal", VDict [("AWS", VStr "*")]);
   ("Condition", VNone)].

(** * Proofs *)

(** ** Keys, strings and entries *)

Lemma mem_keys_lookup (k : string) (d : dict) :
  mem k (map fst d) = match lookup k d with Some _ => true | None => false end.
Proof.
  unfold mem.
  induction d as [|[k' v] d IH]; simpl; [reflexivity|].
  destruct (k =? k'); simpl; [reflexivity|exact IH].
Qed.

Lemma append_empty_r (a : string) : a ++ "" = a.
Proof. induction a as [|c a IH]; cbn; [reflexivity|rewrite IH; reflexivity]. Qed.

Lemma append_assoc (a b c : string) : (a ++ b) ++ c = a ++ b ++ c.
Proof. induction a as [|x a IH]; cbn; [reflexivity|rewrite IH; reflexivity]. Qed.

Lemma eq_str_true (p : value) (k : string) :
  eq_str p k = true -> p = VStr k.
Proof.
  destruct p; try discriminate. cbn [eq_str]. intro H.
  apply String.eqb_eq in H. congruence.
Qed.

Lemma eq_str_char (c : ascii) :
  eq_str (VStr (String c "")) "*" = Ascii.eqb c "*".
Proof.
  change (eq_str (VStr (String c "")) "*")
    with (if Ascii.eqb c "*" then true else false).
  destruct (Ascii.eqb c "*"); reflexivity.
Qed.

Lemma prefix_star (c : ascii) (s : string) :
  prefix "*" (String c s) = Ascii.eqb c "*".
Proof.
  change (prefix "*" (String c s))
    with (if Ascii.ascii_dec "*" c then prefix "" s else false).
  destruct (Ascii.ascii_dec "*" c) as [<-|Hne].
  - destruct s; reflexivity.
  - symmetry. apply Ascii.eqb_neq. congruence.
Qed.

Lemma first_star_existsb (l : list value) :
  match first_star l with Some _ => true | None => false end
  = existsb (fun p => eq_str p "*") l.
Proof.
  induction l as [|p l IH]; simpl; [reflexivity|].
  destruct (eq_str p "*"); simpl; [reflexivity|].
  rewrite <- IH. destruct (first_star l); reflexivity.
Qed.

Lemma first_star_keys (d : dict) :
  match first_star (map (fun kv => VStr (fst kv)) d) with
  | Some _ => true
  | None => false
  end = mem "*" (map fst d).
Proof.
  rewrite first_star_existsb. unfold mem.
  induction d as [|[k v] d IH]; simpl; [reflexivity|].
  rewrite IH, (String.eqb_sym k "*"). reflexivity.
Qed.

Lemma first_star_chars (s : string) :
  match first_star (chars s) with Some _ => true | None => false end
  = is_substring "*" s.
Proof.
  induction s as [|c s IH]; [reflexivity|].
  cbn [chars first_star is_substring].
  rewrite eq_str_char, prefix_star.
  destruct (Ascii.eqb c "*"); [reflexivity|].
  cbn [orb]. rewrite <- IH.
  destruct (first_star (chars s)); reflexivity.
Qed.

Lemma star_alone : is_substring "*" "*" = true.
Proof. reflexivity. Qed.

(** On a plain block the entries the loop goes through hold ["*"] exactly
    when the block has a wildcard entry. *)
Lemma first_star_wildcard (block : value) (entries : list value) :
  plain_block block = true ->
  iterate block = Return entries ->
  match first_star entries with Some _ => true | None => false end
  = wildcard_entry block.
Proof.
  intros Hp Hi.
  destruct block as [| | | |s|l|d]; try discriminate;
    injection Hi as <-; simpl.
  - rewrite first_star_chars. simpl in Hp.
    destruct (s =? "*") eqn:Hs.
    + apply String.eqb_eq in Hs. subst s. reflexivity.
    + simpl in Hp. destruct (is_substring "*" s); [discriminate|reflexivity].
  - apply first_star_existsb.
  - apply first_star_keys.
Qed.



(** ** The calls run as their summaries say *)

Lemma scan_principals_run (statement block : value) (evaluated_key : string) :
  forall (entries : list value) (i : nat) (s : store),
    scan_principals statement block evaluated_key i entries s =
    match first_star entries with
    | None => (Return None, s)
    | Some j =>
        match check_for_constrained_condition statement with
        | Raise e => (Raise e, s)
        | Return true => (Return None, s)
        | Return false =>
            (Return (Some FAILED),
             with_keys [if isinstance_list block
                        then indexed_key evaluated_key (i + j)
                        else evaluated_key] s)
        end
    end.
Proof.
  induction entries as [|p entries IH]; intros i s; simpl; [reflexivity|].
  destruct (eq_str p "*") eqn:Hp; simpl.
  - unfold lift.
    destruct (check_for_constrained_condition statement) as [[|]|e] eqn:Hc; simpl.
    + rewrite IH. destruct (first_star entries); reflexivity.
    + rewrite Nat.add_0_r. destruct (isinstance_list block); reflexivity.
    + reflexivity.
  - rewrite IH. destruct (first_star entries) as [j|]; simpl; [|reflexivity].
    rewrite Nat.add_succ_r. reflexivity.
Qed.

Lemma statement_summary_block (i : nat) (statement : value) :
  statement_summary i statement =
  match scanned_block statement with
  | Raise e => Raise e
  | Return None => Return None
  | Return (Some (b, aws)) => block_summary i statement b aws
  end.
Proof. reflexivity. Qed.

Lemma scan_block_run (i : nat) (statement b : value) (aws : bool) (s : store) :
  (entries <- lift (iterate b) ;;
   scan_principals statement b
     (if aws then statement_key i ++ "/AWS" else statement_key i) 0 entries) s
  = settle (block_summary i statement b aws) s.
Proof.
  unfold block_summary, lift. cbn [bind M_monad].
  destruct (iterate b) as [entries|e]; [|reflexivity].
  rewrite scan_principals_run.
  destruct (first_star entries) as [j|]; [|reflexivity].
  destruct (check_for_constrained_condition statement) as [[|]|e];
    reflexivity.
Qed.

Lemma scan_statement_run (i : nat) (statement : value) (s : store) :
  scan_statement i statement s = settle (statement_summary i statement) s.
Proof.
  rewrite statement_summary_block.
  unfold scan_statement, scanned_block.
  destruct statement as [| | | | |l|d]; try reflexivity.
  cbn [bind M_monad lift method_keys]. rewrite mem_keys_lookup.
  unfold getitem at 1.
  destruct (lookup "Principal" d) as [block|] eqn:Hb; [|reflexivity].
  destruct block as [| | | | |l|p];
    lazymatch goal with
    | |- context [isinstance_dict ?b] =>
        try exact (scan_block_run i (VDict d) b false s)
    end.
  cbn [isinstance_dict contains bind M_monad lift ret].
  rewrite mem_keys_lookup. unfold getitem at 1.
  destruct (lookup "AWS" p) as [aws|] eqn:Ha.
  - exact (scan_block_run i (VDict d) aws true s).
  - exact (scan_block_run i (VDict d) (VDict p) false s).
Qed.

Lemma scan_statements_run :
  forall (statements : list value) (i : nat) (s : store),
    scan_statements i statements s = settle (statements_summary i statements) s.
Proof.
  induction statements as [|statement statements IH]; intros i s; simpl;
    [reflexivity|].
  rewrite scan_statement_run.
  destruct (statement_summary i statement) as [[k|]|e]; simpl;
    [reflexivity| apply IH | reflexivity].
Qed.

Lemma scan_policy_run (policy_text : value) (s : store) :
  scan_policy policy_text s = conclude (policy_summary policy_text) s.
Proof.
  unfold scan_policy, policy_summary.
  destruct policy_text as [| | | | |l|d]; try reflexivity.
  cbn [bind M_monad lift method_keys]. rewrite mem_keys_lookup.
  unfold getitem.
  destruct (lookup "Statement" d) as [statements|] eqn:Hs; [|reflexivity].
  destruct statements as [| | | | |l|p]; try reflexivity.
  cbn [bind M_monad lift ret isinstance_list iterate].
  rewrite scan_statements_run.
  destruct (statements_summary 0 l) as [[k|]|e]; reflexivity.
Qed.

Section Run.

Variable json_loads : string -> json_result.
Variable match_sls_var : string -> bool.

(** A call of [scan_resource_conf] returns what [summary] says of the
    configuration and leaves the configuration and [entity_path] as they
    were, [evaluated_keys] replaced, and the diagnostics appended. *)
Lemma scan_resource_conf_run (s : store) :
  scan_resource_conf json_loads match_sls_var s =
  (fst (summary json_loads (conf s)),
   mkStore (conf s) (snd (summary json_loads (conf s))) (entity_path s)
           (logged s ++ diagnostics json_loads match_sls_var (conf s) (entity_path s))).
Proof.
  unfold scan_resource_conf, summary, diagnostics, policy_of.
  cbn [bind M_monad set_evaluated_keys read_conf].
  replace (conf (with_keys default_evaluated_keys s)) with (conf s) by reflexivity.
  destruct (dict_get (conf s) "Properties") as [| | | | |l|properties];
    try (cbn [isinstance_dict negb]; rewrite orb_true_r; cbn;
         rewrite app_nil_r; reflexivity).
  destruct properties as [|kv properties];
    [cbn; rewrite app_nil_r; reflexivity|].
  set (props := kv :: properties).
  cbn [truthy isinstance_dict negb orb method_get lift bind M_monad].
  destruct (truthy (dict_get props "RepositoryPolicyText")) eqn:Ht;
    cbn [negb]; [|cbn; rewrite app_nil_r; reflexivity].
  assert (Hdoc : forall v : value,
             scan_policy v (with_keys default_evaluated_keys s) =
             (fst match policy_summary v with
                  | Return (Some k) => (Return FAILED, [k])
                  | Return None => (Return PASSED, default_evaluated_keys)
                  | Raise e => (Raise e, default_evaluated_keys)
                  end,
              mkStore (conf s)
                (snd match policy_summary v with
                     | Return (Some k) => (Return FAILED, [k])
                     | Return None => (Return PASSED, default_evaluated_keys)
                     | Raise e => (Raise e, default_evaluated_keys)
                     end)
                (entity_path s) (logged s ++ []))).
  { intro v. rewrite scan_policy_run, app_nil_r.
    destruct (policy_summary v) as [[k|]|e]; reflexivity. }
  destruct (dict_get props "RepositoryPolicyText") as [| | | |str|l|d];
    cbn [load_policy_text ret M_monad]; try apply Hdoc.
  destruct (json_loads str) as [v|msg|e]; cbn [ret M_monad bind lift];
    [apply Hdoc| |cbn; rewrite app_nil_r; reflexivity].
  cbn [read_entity_path]. destruct (match_sls_var str); reflexivity.
Qed.

Lemma run_of_summary (s : store) (r : outcome CheckResult) (ks : list string) :
  summary json_loads (conf s) = (r, ks) ->
  diagnostics json_loads match_sls_var (conf s) (entity_path s) = [] ->
  scan_resource_conf json_loads match_sls_var s
  = (r, mkStore (conf s) ks (entity_path s) (logged s)).
Proof.
  intros Hs Hd. rewrite scan_resource_conf_run, Hs, Hd, app_nil_r.
  reflexivity.
Qed.

Lemma policy_of_text (c properties : dict) (policy_text : value) :
  lookup "Properties" c = Some (VDict properties) ->
  lookup "RepositoryPolicyText" properties = Some policy_text ->
  truthy policy_text = true ->
  policy_of json_loads c =
  match policy_text with
  | VStr s =>
      match json_loads s with
      | Parsed v => Document v
      | JSONDecodeError msg => Unparsed s msg
      | JSONRaises e => Escaped e
      end
  | _ => Document policy_text
  end.
Proof.
  intros Hp Ht Hy. unfold policy_of, dict_get. rewrite Hp.
  destruct properties as [|kv properties]; [discriminate|].
  rewrite Ht, Hy. reflexivity.
Qed.

Lemma policy_of_no_properties (c : dict) :
  no_properties c -> policy_of json_loads c = NoPolicy.
Proof.
  unfold policy_of, dict_get. intros [H|[v [H Hd]]]; rewrite H;
    [reflexivity|].
  destruct v; try reflexivity. discriminate.
Qed.

Lemma policy_of_no_policy_text (c : dict) :
  no_policy_text c -> policy_of json_loads c = NoPolicy.
Proof.
  unfold policy_of, dict_get. intros [properties [Hp Ht]]. rewrite Hp.
  destruct properties as [|kv properties]; [reflexivity|].
  destruct Ht as [Ht|[v [Ht Hv]]]; rewrite Ht; [reflexivity|].
  rewrite Hv. reflexivity.
Qed.

End Run.

(** ** The qualifying condition *)

Lemma check_dict_condition (st condition : dict) :
  lookup "Condition" st = Some (VDict condition) ->
  check_for_constrained_condition (VDict st) =
  Return match first_present condition_operators condition with
         | Some v => has_org_id v
         | None => false
         end.
Proof.
  intro Hc. unfold check_for_constrained_condition.
  cbn [contains bind outcome_monad]. rewrite mem_keys_lookup.
  unfold getitem at 1. rewrite Hc.
  cbn [contains bind outcome_monad first_present condition_operators].
  rewrite !mem_keys_lookup. unfold getitem.
  destruct (lookup "StringEquals" condition) as [v|].
  { destruct v; cbn; try reflexivity.
    destruct (mem _ _); reflexivity. }
  destruct (lookup "ForAllValues:StringEquals" condition) as [v|].
  { destruct v; cbn; try reflexivity.
    destruct (mem _ _); reflexivity. }
  destruct (lookup "ForAnyValue:StringEquals" condition) as [v|].
  { destruct v; cbn; try reflexivity.
    destruct (mem _ _); reflexivity. }
  reflexivity.
Qed.

(** A condition that is not a mapping never yields [True]: a sequence or a
    string that holds an operator's name cannot be subscripted with it. *)
Lemma check_other_condition (st : dict) (condition : value) :
  lookup "Condition" st = Some condition ->
  isinstance_dict condition = false ->
  check_for_constrained_condition (VDict st) <> Return true.
Proof.
  intros Hc Hd. unfold check_for_constrained_condition.
  cbn [contains bind outcome_monad]. rewrite mem_keys_lookup.
  unfold getitem at 1. rewrite Hc.
  destruct condition as [| | | |str|l|d]; try discriminate;
    cbn [contains bind outcome_monad getitem].
  - destruct (is_substring "StringEquals" str); [discriminate|].
    destruct (is_substring "ForAllValues:StringEquals" str); [discriminate|].
    destruct (is_substring "ForAnyValue:StringEquals" str); discriminate.
  - destruct (existsb _ l); [discriminate|].
    destruct (existsb _ l); [discriminate|].
    destruct (existsb _ l); discriminate.
Qed.

Lemma check_not_dict (statement : value) :
  isinstance_dict statement = false ->
  check_for_constrained_condition statement <> Return true.
Proof.
  intro Hd. unfold check_for_constrained_condition.
  destruct statement as [| | | |str|l|d]; try discriminate;
    cbn [contains bind outcome_monad getitem].
  - destruct (is_substring "Condition" str); discriminate.
  - destruct (existsb _ l); discriminate.
Qed.

Lemma check_no_condition (st : dict) :
  lookup "Condition" st = None ->
  check_for_constrained_condition (VDict st) = Return false.
Proof.
  intro Hc. unfold check_for_constrained_condition.
  cbn [contains bind outcome_monad]. rewrite mem_keys_lookup, Hc.
  reflexivity.
Qed.

Lemma check_true_iff (statement : value) :
  check_for_constrained_condition statement = Return true
  <-> org_constrained statement = true.
Proof.
  unfold org_constrained.
  destruct statement as [| | | |str|l|st];
    try (split; [intro H; exfalso; revert H; apply check_not_dict; reflexivity
                |discriminate]).
  destruct (lookup "Condition" st) as [condition|] eqn:Hc.
  - destruct condition as [| | | |str|l|condition];
      try (split; [intro H; exfalso; revert H;
                   apply (check_other_condition st _ Hc); reflexivity
                  |discriminate]).
    rewrite (check_dict_condition st condition Hc).
    destruct (first_present condition_operators condition) as [v|];
      split; congruence.
  - rewrite (check_no_condition st Hc). split; discriminate.
Qed.

Lemma not_constrained (statement : value) :
  check_for_constrained_condition statement = Return false ->
  org_constrained statement = false.
Proof.
  intro Hc. destruct (org_constrained statement) eqn:Ho; [|reflexivity].
  apply check_true_iff in Ho. congruence.
Qed.

(** The method raises [TypeError] only: every subscript with a key follows
    a membership test, so [KeyError] never arises. *)
Lemma check_raises (statement : value) (e : exn) :
  check_for_constrained_condition statement = Raise e -> e = TypeError.
Proof.
  destruct statement as [| | | |str|l|st];
    try (intro H; injection H as <-; reflexivity).
  - unfold check_for_constrained_condition.
    cbn [contains bind outcome_monad getitem].
    destruct (is_substring "Condition" str); intro H;
      [injection H as <-; reflexivity|discriminate].
  - unfold check_for_constrained_condition.
    cbn [contains bind outcome_monad getitem].
    destruct (existsb _ l); intro H;
      [injection H as <-; reflexivity|discriminate].
  - destruct (lookup "Condition" st) as [condition|] eqn:Hc.
    + destruct condition as [| | | |str|l|condition];
        try (unfold check_for_constrained_condition;
             cbn [contains bind outcome_monad]; rewrite mem_keys_lookup;
             unfold getitem at 1; rewrite Hc;
             cbn [contains bind outcome_monad getitem];
             intro H; injection H as <-; reflexivity).
      * unfold check_for_constrained_condition.
        cbn [contains bind outcome_monad]. rewrite mem_keys_lookup.
        unfold getitem at 1. rewrite Hc.
        cbn [contains bind outcome_monad getitem].
        repeat (destruct (is_substring _ str);
                [intro H; injection H as <-; reflexivity|]).
        discriminate.
      * unfold check_for_constrained_condition.
        cbn [contains bind outcome_monad]. rewrite mem_keys_lookup.
        unfold getitem at 1. rewrite Hc.
        cbn [contains bind outcome_monad getitem].
        repeat (destruct (existsb _ l);
                [intro H; injection H as <-; reflexivity|]).
        discriminate.
      * rewrite (check_dict_condition st condition Hc). discriminate.
    + rewrite (check_no_condition st Hc). discriminate.
Qed.

(** ** Statements *)

Lemma scanned_block_dict (d : dict) :
  exists r : option (value * bool), scanned_block (VDict d) = Return r.
Proof.
  unfold scanned_block.
  destruct (lookup "Principal" d) as [[| | | | | |p]|]; eauto.
  destruct (lookup "AWS" p); eauto.
Qed.

Lemma scanned_block_aws (statement block : value) (aws : bool) :
  scanned_block statement = Return (Some (block, aws)) ->
  aws = principal_has_aws statement.
Proof.
  unfold scanned_block, principal_has_aws.
  destruct statement as [| | | | | |d]; try discriminate.
  destruct (lookup "Principal" d) as [[| | | | | |p]|]; try discriminate;
    try (intro H; injection H as <- <-; reflexivity).
  rewrite mem_keys_lookup.
  destruct (lookup "AWS" p); intro H; injection H as <- <-; reflexivity.
Qed.

Lemma statement_summary_open (i : nat) (statement : value) :
  plain_statement statement = true ->
  forall o : option string,
    statement_summary i statement = Return o ->
    open_wildcard statement = match o with Some _ => true | None => false end.
Proof.
  unfold plain_statement, statement_summary, open_wildcard.
  destruct (scanned_block statement) as [[[block aws]|]|e];
    intros Hp o Hs; try discriminate.
  - destruct (iterate block) as [entries|e] eqn:Hi; [|discriminate].
    rewrite <- (first_star_wildcard block entries Hp Hi).
    destruct (first_star entries) as [j|].
    + destruct (check_for_constrained_condition statement) as [[|]|e] eqn:Hc;
        try discriminate; injection Hs as <-.
      * apply check_true_iff in Hc. rewrite Hc. reflexivity.
      * rewrite (not_constrained statement Hc). reflexivity.
    + injection Hs as <-. reflexivity.
  - injection Hs as <-. reflexivity.
Qed.

Lemma statements_summary_open :
  forall (statements : list value) (i : nat) (o : option string),
    forallb plain_statement statements = true ->
    statements_summary i statements = Return o ->
    existsb open_wildcard statements
    = match o with Some _ => true | None => false end.
Proof.
  induction statements as [|statement statements IH]; intros i o Hp Hs.
  - injection Hs as <-. reflexivity.
  - cbn [forallb] in Hp. apply andb_prop in Hp as [Hp1 Hp2].
    cbn [statements_summary] in Hs. cbn [existsb].
    destruct (statement_summary i statement) as [[k|]|e] eqn:H1;
      try discriminate.
    + injection Hs as <-.
      rewrite (statement_summary_open i statement Hp1 _ H1). reflexivity.
    + rewrite (statement_summary_open i statement Hp1 _ H1).
      exact (IH (S i) o Hp2 Hs).
Qed.

Lemma policy_summary_open (policy_text : value) (o : option string) :
  forallb plain_statement (statements_of policy_text) = true ->
  policy_summary policy_text = Return o ->
  existsb open_wildcard (statements_of policy_text)
  = match o with Some _ => true | None => false end.
Proof.
  unfold policy_summary, statements_of.
  destruct policy_text as [| | | | | |d]; try discriminate.
  destruct (lookup "Statement" d) as [[| | | | |l|]|];
    try (intros _ H; injection H as <-; reflexivity).
  apply statements_summary_open.
Qed.

Lemma shaped_condition_returns (d : dict) :
  match lookup "Condition" d with
  | Some condition => isinstance_dict condition
  | None => true
  end = true ->
  exists b : bool, check_for_constrained_condition (VDict d) = Return b.
Proof.
  destruct (lookup "Condition" d) as [condition|] eqn:Hl; intro Hc.
  - destruct condition; try discriminate.
    rewrite (check_dict_condition d _ Hl). eauto.
  - rewrite (check_no_condition d Hl). eauto.
Qed.

Lemma shaped_statement_returns (i : nat) (statement : value) :
  shaped_statement statement = true ->
  exists o : option string, statement_summary i statement = Return o.
Proof.
  unfold shaped_statement, statement_summary.
  destruct statement as [| | | | | |d]; try discriminate.
  intro H. apply andb_prop in H as [Hb Hc].
  destruct (shaped_condition_returns d Hc) as [b ->].
  destruct (scanned_block_dict d) as [[[block aws]|] Hr];
    rewrite Hr in *; [|eauto].
  destruct block; try discriminate; cbn [iterate];
    (destruct (first_star _); [destruct b|]); eauto.
Qed.

Lemma shaped_statements_return :
  forall (statements : list value) (i : nat),
    forallb shaped_statement statements = true ->
    exists o : option string, statements_summary i statements = Return o.
Proof.
  induction statements as [|statement statements IH]; intros i H.
  - exists None. reflexivity.
  - cbn [forallb] in H. apply andb_prop in H as [H1 H2].
    cbn [statements_summary].
    destruct (shaped_statement_returns i statement H1) as [[k|] ->]; eauto.
Qed.

Lemma shaped_document_returns (policy_text : value) :
  shaped_document policy_text = true ->
  exists o : option string, policy_summary policy_text = Return o.
Proof.
  unfold shaped_document, policy_summary, statements_of.
  destruct policy_text as [| | | | | |d]; try discriminate.
  cbn [isinstance_dict andb].
  destruct (lookup "Statement" d) as [[| | | | |l|]|]; eauto.
  apply shaped_statements_return.
Qed.

Lemma safe_summary (i : nat) (statement : value) :
  safe statement = true -> statement_summary i statement = Return None.
Proof.
  unfold safe, statement_summary.
  destruct (scanned_block statement) as [[[block aws]|]|e];
    [|reflexivity|discriminate].
  destruct (iterate block) as [entries|e]; [|discriminate].
  rewrite <- first_star_existsb.
  destruct (first_star entries) as [j|]; [|reflexivity].
  cbn [negb orb]. intro Ho. apply check_true_iff in Ho. rewrite Ho.
  reflexivity.
Qed.

Lemma statements_summary_app :
  forall (before rest : list value) (i : nat),
    forallb safe before = true ->
    statements_summary i (before ++ rest)
    = statements_summary (i + List.length before) rest.
Proof.
  induction before as [|statement before IH]; intros rest i H.
  - cbn [app List.length]. rewrite Nat.add_0_r. reflexivity.
  - cbn [forallb] in H. apply andb_prop in H as [H1 H2].
    cbn [app statements_summary List.length].
    rewrite (safe_summary i statement H1), (IH rest (S i) H2).
    rewrite Nat.add_succ_r. reflexivity.
Qed.

Lemma statement_summary_some (i : nat) (statement : value) (k : string) :
  statement_summary i statement = Return (Some k) ->
  exists (block : value) (aws : bool) (entries : list value) (j : nat),
    scanned_block statement = Return (Some (block, aws))
    /\ iterate block = Return entries
    /\ first_star entries = Some j
    /\ check_for_constrained_condition statement = Return false
    /\ k = failed_key i aws block j.
Proof.
  unfold statement_summary.
  destruct (scanned_block statement) as [[[block aws]|]|e] eqn:Hb;
    try discriminate.
  destruct (iterate block) as [entries|e] eqn:Hi; [|discriminate].
  destruct (first_star entries) as [j|] eqn:Hj; [|discriminate].
  destruct (check_for_constrained_condition statement) as [[|]|e] eqn:Hc;
    try discriminate.
  intro H. injection H as <-. exists block, aws, entries, j.
  repeat split; assumption || reflexivity.
Qed.


Lemma statement_summary_raises (i : nat) (statement : value) (e : exn) :
  statement_summary i statement = Raise e ->
  e = AttributeError \/ e = TypeError.
Proof.
  unfold statement_summary.
  destruct statement as [| | | | | |d];
    try (intro H; injection H as <-; left; reflexivity).
  destruct (scanned_block_dict d) as [[[block aws]|] ->]; [|discriminate].
  destruct (iterate block) as [entries|e'] eqn:Hi.
  - destruct (first_star entries); [|discriminate].
    destruct (check_for_constrained_condition (VDict d)) as [[|]|e'] eqn:Hc;
      try discriminate.
    intro H. injection H as <-. right. exact (check_raises _ _ Hc).
  - intro H. injection H as <-. right.
    destruct block; try discriminate; injection Hi as <-; reflexivity.
Qed.

Lemma statements_summary_raises :
  forall (statements : list value) (i : nat) (e : exn),
    statements_summary i statements = Raise e ->
    e = AttributeError \/ e = TypeError.
Proof.
  induction statements as [|statement statements IH]; intros i e H;
    [discriminate|].
  cbn [statements_summary] in H.
  destruct (statement_summary i statement) as [[k|]|e'] eqn:H1.
  - discriminate.
  - exact (IH (S i) e H).
  - injection H as <-. exact (statement_summary_raises i statement e' H1).
Qed.

Lemma policy_summary_raises (policy_text : value) (e : exn) :
  policy_summary policy_text = Raise e ->
  e = AttributeError \/ e = TypeError.
Proof.
  unfold policy_summary.
  destruct policy_text as [| | | | | |d];
    try (intro H; injection H as <-; left; reflexivity).
  destruct (lookup "Statement" d) as [[| | | | |l|]|]; try discriminate.
  apply statements_summary_raises.
Qed.

(** ** Lemmas for the further properties *)

Lemma check_reads_condition (d : dict) :
  check_for_constrained_condition (VDict d)
  = match lookup "Condition" d with
    | Some condition => constrained_by condition
    | None => Return false
    end.
Proof.
  unfold check_for_constrained_condition, constrained_by.
  cbn [contains bind outcome_monad]. rewrite mem_keys_lookup.
  unfold getitem at 1.
  destruct (lookup "Condition" d) as [condition|]; reflexivity.
Qed.

Lemma statement_summary_reads (i : nat) (d1 d2 : dict) :
  lookup "Principal" d1 = lookup "Principal" d2 ->
  lookup "Condition" d1 = lookup "Condition" d2 ->
  statement_summary i (VDict d1) = statement_summary i (VDict d2).
Proof.
  intros Hp Hc. unfold statement_summary, scanned_block.
  rewrite !check_reads_condition, Hp, Hc. reflexivity.
Qed.

Lemma summary_none_safe (i : nat) (statement : value) :
  statement_summary i statement = Return None -> safe statement = true.
Proof.
  unfold statement_summary, safe.
  destruct (scanned_block statement) as [[[block aws]|]|e];
    [|reflexivity|discriminate].
  destruct (iterate block) as [entries|e]; [|discriminate].
  rewrite <- first_star_existsb.
  destruct (first_star entries) as [j|]; [|reflexivity].
  destruct (check_for_constrained_condition statement) as [[|]|e] eqn:Hc;
    try discriminate.
  intros _. apply check_true_iff in Hc. rewrite Hc. reflexivity.
Qed.

Lemma statements_summary_none_safe :
  forall (statements : list value) (i : nat),
    statements_summary i statements = Return None ->
    forallb safe statements = true.
Proof.
  induction statements as [|statement statements IH]; intros i H;
    [reflexivity|].
  cbn [statements_summary] in H. cbn [forallb].
  destruct (statement_summary i statement) as [[k|]|e] eqn:H1;
    try discriminate.
  rewrite (summary_none_safe i statement H1), (IH (S i) H). reflexivity.
Qed.

Lemma statements_summary_all_safe (statements : list value) (i : nat) :
  forallb safe statements = true ->
  statements_summary i statements = Return None.
Proof.
  intro H. rewrite <- (app_nil_r statements).
  rewrite (statements_summary_app statements [] i H). reflexivity.
Qed.

Lemma statements_summary_first :
  forall (statements : list value) (i : nat) (k : string),
    statements_summary i statements = Return (Some k) ->
    exists (before later : list value) (statement : value),
      statements = (before ++ statement :: later)%list
      /\ forallb safe before = true
      /\ statement_summary (i + List.length before) statement = Return (Some k).
Proof.
  induction statements as [|statement statements IH]; intros i k H;
    [discriminate|].
  cbn [statements_summary] in H.
  destruct (statement_summary i statement) as [[k'|]|e] eqn:H1;
    try discriminate.
  - injection H as <-. exists [], statements, statement.
    cbn [app forallb List.length]. rewrite Nat.add_0_r. auto.
  - destruct (IH (S i) k H) as [before [later [st [-> [Hs Hk]]]]].
    exists (statement :: before), later, st.
    cbn [app forallb List.length].
    rewrite (summary_none_safe i statement H1), Hs, Nat.add_succ_r. auto.
Qed.

Lemma first_star_split :
  forall (entries : list value) (j : nat),
    first_star entries = Some j ->
    exists clean rest : list value,
      entries = (clean ++ VStr "*" :: rest)%list
      /\ existsb (fun p => eq_str p "*") clean = false
      /\ List.length clean = j.
Proof.
  induction entries as [|p entries IH]; intros j H; [discriminate|].
  cbn [first_star] in H. destruct (eq_str p "*") eqn:Hp.
  - injection H as <-. exists [], entries.
    rewrite (eq_str_true p _ Hp). auto.
  - destruct (first_star entries) as [j'|] eqn:Hj; [|discriminate].
    injection H as <-.
    destruct (IH j' eq_refl) as [clean [rest [-> [Hc Hl]]]].
    exists (p :: clean), rest. cbn [app existsb List.length].
    rewrite Hp, Hc, Hl. auto.
Qed.

Lemma digits_of_uint (d : Decimal.uint) :
  all_digits (NilEmpty.string_of_uint d) = true.
Proof. induction d; cbn; auto. Qed.

Lemma digits_of_nat (n : nat) : all_digits (str_of_nat n) = true.
Proof.
  unfold str_of_nat, NilZero.string_of_uint.
  destruct (Nat.to_uint n); try reflexivity; apply digits_of_uint.
Qed.

Lemma to_uint_nonnil (n : nat) : Nat.to_uint n <> Decimal.Nil.
Proof.
  rewrite <- (DecimalNat.Unsigned.of_to n) at 1.
  rewrite DecimalNat.Unsigned.to_of. apply DecimalFacts.unorm_nonnil.
Qed.

(** The index an f-string writes reads back as the same number. *)
Lemma str_of_nat_reads_back (n : nat) :
  option_map Nat.of_uint (NilZero.uint_of_string (str_of_nat n)) = Some n.
Proof.
  unfold str_of_nat. rewrite (NilZero.usu _ (to_uint_nonnil n)).
  cbn [option_map]. rewrite DecimalNat.Unsigned.of_to. reflexivity.
Qed.

Lemma str_of_nat_inj (n m : nat) : str_of_nat n = str_of_nat m -> n = m.
Proof.
  intro H. pose proof (str_of_nat_reads_back n) as Hn.
  rewrite H, str_of_nat_reads_back in Hn. congruence.
Qed.

Lemma append_inj_l (p a b : string) : p ++ a = p ++ b -> a = b.
Proof.
  induction p as [|c p IH]; cbn; intro H; [exact H|].
  injection H as H. exact (IH H).
Qed.

Lemma digits_prefix_inj :
  forall (a b r r' : string),
    all_digits a = true -> all_digits b = true ->
    a ++ String "]" r = b ++ String "]" r' -> a = b /\ r = r'.
Proof.
  induction a as [|c a IH]; intros [|c' b] r r' Ha Hb H; cbn in *.
  - injection H as ->. auto.
  - injection H as <- _. discriminate.
  - injection H as -> _. discriminate.
  - injection H as -> H.
    apply andb_prop in Ha as [_ Ha]. apply andb_prop in Hb as [_ Hb].
    destruct (IH b r r' Ha Hb H) as [-> ->]. auto.
Qed.

Lemma failed_key_tail (i : nat) (aws : bool) (block : value) (j : nat) :
  failed_key i aws block j
  = "Properties/RepositoryPolicyText/Statement/["
      ++ str_of_nat i ++ "]/Principal"
      ++ key_tail aws (isinstance_list block) j.
Proof.
  unfold failed_key, indexed_key, statement_key, key_tail.
  destruct aws, (isinstance_list block);
    rewrite ?append_assoc; cbn [append]; rewrite ?append_assoc;
    cbn [append]; rewrite ?append_empty_r; reflexivity.
Qed.

Lemma key_tail_inj (aws aws' l l' : bool) (j j' : nat) :
  key_tail aws l j = key_tail aws' l' j' ->
  aws = aws' /\ l = l' /\ (l = true -> j = j').
Proof.
  unfold key_tail.
  destruct aws, aws', l, l'; cbn [append]; intro H;
    try discriminate; repeat split; try discriminate; intros _.
  - injection H as H.
    destruct (digits_prefix_inj _ _ _ _ (digits_of_nat j) (digits_of_nat j') H)
      as [Hj _].
    exact (str_of_nat_inj j j' Hj).
  - injection H as H.
    destruct (digits_prefix_inj _ _ _ _ (digits_of_nat j) (digits_of_nat j') H)
      as [Hj _].
    exact (str_of_nat_inj j j' Hj).
Qed.

Section Reads.

Variable json_loads : string -> json_result.

(** Lines 29-47 read the configuration only at
    [Properties.RepositoryPolicyText]. *)
Lemma policy_of_reads (c : dict) :
  policy_of json_loads c
  = match lookup "Properties" c with
    | Some (VDict properties) =>
        match lookup "RepositoryPolicyText" properties with
        | Some policy_text =>
            if truthy policy_text then
              match policy_text with
              | VStr s =>
                  match json_loads s with
                  | Parsed v => Document v
                  | JSONDecodeError msg => Unparsed s msg
                  | JSONRaises e => Escaped e
                  end
              | _ => Document policy_text
              end
            else NoPolicy
        | None => NoPolicy
        end
    | _ => NoPolicy
    end.
Proof.
  unfold policy_of, dict_get.
  destruct (lookup "Properties" c) as [[| | | | | |properties]|];
    try reflexivity.
  destruct properties as [|kv properties]; [reflexivity|].
  destruct (lookup "RepositoryPolicyText" (kv :: properties)); reflexivity.
Qed.

(** An exception of [json.loads] leaves the method only from line 37. *)
Lemma policy_of_escaped (c : dict) (e : exn) :
  policy_of json_loads c = Escaped e ->
  exists (properties : dict) (str : string),
    lookup "Properties" c = Some (VDict properties)
    /\ lookup "RepositoryPolicyText" properties = Some (VStr str)
    /\ json_loads str = JSONRaises e.
Proof.
  rewrite policy_of_reads.
  destruct (lookup "Properties" c) as [[| | | | | |properties]|] eqn:Hp;
    try discriminate.
  destruct (lookup "RepositoryPolicyText" properties) as [policy_text|] eqn:Ht;
    [|discriminate].
  destruct (truthy policy_text); [|discriminate].
  destruct policy_text as [| | | |str| |]; try discriminate.
  destruct (json_loads str) as [v|msg|e'] eqn:Hj; try discriminate.
  intro H. injection H as <-. exists properties, str.
  repeat split; assumption || reflexivity.
Qed.

End Reads.

Section Shape.

Variable json_loads : string -> json_result.
Variable match_sls_var : string -> bool.

(** A well-shaped configuration gets a verdict. *)
Lemma well_shaped_returns (s : store) :
  well_shaped json_loads (conf s) = true ->
  exists v : CheckResult,
    fst (scan_resource_conf json_loads match_sls_var s) = Return v.
Proof.
  rewrite scan_resource_conf_run. cbn [fst]. unfold summary, well_shaped.
  destruct (policy_of json_loads (conf s)) as [|str msg|e0|policy_text];
    cbn [fst]; intro Hw; eauto; [discriminate|].
  destruct (shaped_document_returns policy_text Hw) as [[k|] ->];
    cbn [fst]; eauto.
Qed.

End Shape.

(** * The claims *)

Section Claims.

Variable json_loads : string -> json_result.
Variable match_sls_var : string -> bool.

(** C1, amended: on a configuration whose bare-string principal blocks are
    ["*"] or free of [*], the call returns a verdict whenever the document is
    well shaped, and every verdict it returns is [FAILED] exactly when the
    working document has a statement with a wildcard entry and no
    qualifying condition, and [PASSED] or [UNKNOWN] otherwise. *)
Theorem C1_failed_iff_open_wildcard (s : store) :
  plain_strings json_loads (conf s) = true ->
  (well_shaped json_loads (conf s) = true ->
   exists v : CheckResult,
     fst (scan_resource_conf json_loads match_sls_var s) = Return v)
  /\ (forall v : CheckResult,
        fst (scan_resource_conf json_loads match_sls_var s) = Return v ->
        (v = FAILED <-> has_open_wildcard json_loads (conf s) = true)
        /\ (has_open_wildcard json_loads (conf s) = false ->
            v = PASSED \/ v = UNKNOWN)).
Proof.
  intro Hp. split; [apply well_shaped_returns|].
  intro v. rewrite scan_resource_conf_run. cbn [fst].
  revert Hp. unfold summary, plain_strings, has_open_wildcard.
  destruct (policy_of json_loads (conf s)) as [|str msg|e0|policy_text];
    cbn [fst]; intros Hp Hv.
  - injection Hv as <-. split; [split; discriminate|auto].
  - injection Hv as <-. split; [split; discriminate|auto].
  - discriminate.
  - destruct (policy_summary policy_text) as [o|e] eqn:Ho;
      [|discriminate].
    rewrite (policy_summary_open policy_text o Hp Ho).
    destruct o as [k|]; injection Hv as <-.
    + split; [split; reflexivity|discriminate].
    + split; [split; discriminate|auto].
Qed.


(** C3: [check_for_constrained_condition] returns [True] exactly when the
    statement has a [Condition] mapping and the value of the first of
    [StringEquals], [ForAllValues:StringEquals], [ForAnyValue:StringEquals]
    present in it, in that order, is a mapping with the key
    [aws:PrincipalOrgID]; when the first operator present lacks the key the
    method returns [False], whatever the later operators hold. *)
Theorem C3_constrained_condition (statement : value) :
  (check_for_constrained_condition statement = Return true
   <-> org_constrained statement = true)
  /\ (forall (st condition : dict) (v : value),
        statement = VDict st ->
        lookup "Condition" st = Some (VDict condition) ->
        first_present condition_operators condition = Some v ->
        has_org_id v = false ->
        check_for_constrained_condition statement = Return false).
Proof.
  split; [apply check_true_iff|].
  intros st condition v -> Hc Hv Ho.
  rewrite (check_dict_condition st condition Hc), Hv, Ho. reflexivity.
Qed.

(** C4: a bare string that holds [*] among other characters is not a
    wildcard entry, and the call fails it all the same: the loop goes
    through the characters of the string and meets ["*"].  The same string
    as the only element of a sequence passes. *)
Theorem C4_bare_string_scanned_by_character :
  wildcard_entry (VStr "arn:aws:iam::*:root") = false
  /\ (forall (ks : list string) (path : string) (log : list (level * string)),
        let c := resource (policy [allow (VStr "arn:aws:iam::*:root")]) in
        scan_resource_conf json_loads match_sls_var (mkStore c ks path log)
        = (Return FAILED,
           mkStore c
             ["Properties/RepositoryPolicyText/Statement/[0]/Principal"]
             path log))
  /\ (forall (ks : list string) (path : string) (log : list (level * string)),
        let c :=
          resource (policy [allow (VList [VStr "arn:aws:iam::*:root"])]) in
        scan_resource_conf json_loads match_sls_var (mkStore c ks path log)
        = (Return PASSED,
           mkStore c ["Properties/RepositoryPolicyText/Statement"] path log)).
Proof. repeat split; reflexivity. Qed.


(** C6, amended: when [RepositoryPolicyText] is a non-empty string that
    [json.loads] rejects, the call returns [UNKNOWN], leaves the default
    evaluated keys and logs one record, at level INFO when the string matches
    the placeholder pattern and at level ERROR when it does not. *)
Theorem C6_parse_failure_unknown (s : store) (properties : dict)
    (str msg : string) :
  lookup "Properties" (conf s) = Some (VDict properties) ->
  lookup "RepositoryPolicyText" properties = Some (VStr str) ->
  str <> "" ->
  json_loads str = JSONDecodeError msg ->
  scan_resource_conf json_loads match_sls_var s
  = (Return UNKNOWN,
     mkStore (conf s) default_evaluated_keys (entity_path s)
       (logged s
        ++ [if match_sls_var str
            then (INFO, variable_message str (entity_path s))
            else (ERROR, malformed_message str (entity_path s) msg)])).
Proof.
  intros Hp Ht Hne Hj.
  assert (Hy : truthy (VStr str) = true).
  { cbn [truthy]. apply String.eqb_neq in Hne. rewrite Hne. reflexivity. }
  rewrite scan_resource_conf_run. unfold summary, diagnostics.
  rewrite (policy_of_text json_loads _ _ _ Hp Ht Hy), Hj.
  destruct (match_sls_var str); reflexivity.
Qed.

(** C7: when [Properties] is absent or not a mapping, or
    [RepositoryPolicyText] is absent or empty, or the working document is a
    mapping without a [Statement] or with a [Statement] that is not a
    sequence, the call returns [PASSED] and leaves the default evaluated
    key. *)
Theorem C7_passed_by_default (s : store) :
  no_properties (conf s) \/ no_policy_text (conf s)
  \/ no_statement_list json_loads (conf s) ->
  scan_resource_conf json_loads match_sls_var s
  = (Return PASSED,
     mkStore (conf s) ["Properties/RepositoryPolicyText/Statement"]
             (entity_path s) (logged s)).
Proof.
  intro H. apply run_of_summary.
  - unfold summary. destruct H as [H|[H|[d [Hdoc H]]]].
    + rewrite (policy_of_no_properties json_loads _ H). reflexivity.
    + rewrite (policy_of_no_policy_text json_loads _ H). reflexivity.
    + rewrite Hdoc. cbn [policy_summary].
      destruct H as [H|[v [H Hl]]]; rewrite H; [reflexivity|].
      destruct v; try reflexivity. discriminate.
  - unfold diagnostics. destruct H as [H|[H|[d [Hdoc H]]]].
    + rewrite (policy_of_no_properties json_loads _ H). reflexivity.
    + rewrite (policy_of_no_policy_text json_loads _ H). reflexivity.
    + rewrite Hdoc. reflexivity.
Qed.


(** C9: the verdict and the evaluated keys of a call depend on the
    configuration alone, not on the state the check object and the log were
    in; a call leaves the configuration as it was; a second call on the
    state the first one left gives the same verdict and the same keys. *)
Theorem C9_pure_read_only (c : dict) (ks1 ks2 : list string)
    (path1 path2 : string) (log1 log2 : list (level * string)) :
  let r1 := scan_resource_conf json_loads match_sls_var
              (mkStore c ks1 path1 log1) in
  let r2 := scan_resource_conf json_loads match_sls_var
              (mkStore c ks2 path2 log2) in
  let again := scan_resource_conf json_loads match_sls_var (snd r1) in
  fst r1 = fst r2
  /\ evaluated_keys (snd r1) = evaluated_keys (snd r2)
  /\ conf (snd r1) = c
  /\ fst again = fst r1
  /\ evaluated_keys (snd again) = evaluated_keys (snd r1)
  /\ conf (snd again) = c.
Proof.
  cbv zeta. rewrite !scan_resource_conf_run. cbn [fst snd conf evaluated_keys].
  repeat split; reflexivity.
Qed.

(** C10, amended: when [RepositoryPolicyText] is present, non-empty and not
    a string, the call never returns [UNKNOWN]; it returns [PASSED] or
    [FAILED] when the document is a mapping whose statements the scan can
    read. *)
Theorem C10_structured_never_unknown (s : store) (properties : dict)
    (policy_text : value) :
  lookup "Properties" (conf s) = Some (VDict properties) ->
  lookup "RepositoryPolicyText" properties = Some policy_text ->
  truthy policy_text = true ->
  isinstance_str policy_text = false ->
  fst (scan_resource_conf json_loads match_sls_var s) <> Return UNKNOWN
  /\ (shaped_document policy_text = true ->
      fst (scan_resource_conf json_loads match_sls_var s) = Return PASSED
      \/ fst (scan_resource_conf json_loads match_sls_var s) = Return FAILED).
Proof.
  intros Hp Ht Hy Hs. rewrite scan_resource_conf_run. cbn [fst].
  unfold summary. rewrite (policy_of_text json_loads _ _ _ Hp Ht Hy).
  assert (Hdoc : match policy_text with
                 | VStr str =>
                     match json_loads str with
                     | Parsed v => Document v
                     | JSONDecodeError msg => Unparsed str msg
                     | JSONRaises e => Escaped e
                     end
                 | _ => Document policy_text
                 end = Document policy_text).
  { destruct policy_text; try reflexivity. discriminate. }
  rewrite Hdoc. split.
  - destruct (policy_summary policy_text) as [[k|]|e]; discriminate.
  - intro Hw. destruct (shaped_document_returns policy_text Hw) as [[k|] ->];
      auto.
Qed.

End Claims.

(** ** Further properties *)

Section Further.

Variable json_loads : string -> json_result.
Variable match_sls_var : string -> bool.

(** X1: a call that raises, raises [AttributeError] or [TypeError], or the
    exception [json.loads] raised on the policy text and line 38 did not
    catch; every subscript with a key is guarded by a membership test, so
    no [KeyError] comes from the method's own operations. *)
Theorem X1_raises_attribute_or_type_error (s : store) (e : exn) :
  fst (scan_resource_conf json_loads match_sls_var s) = Raise e ->
  e = AttributeError \/ e = TypeError
  \/ exists (properties : dict) (str : string),
       lookup "Properties" (conf s) = Some (VDict properties)
       /\ lookup "RepositoryPolicyText" properties = Some (VStr str)
       /\ json_loads str = JSONRaises e.
Proof.
  rewrite scan_resource_conf_run. cbn [fst]. unfold summary.
  destruct (policy_of json_loads (conf s)) as [|str msg|e0|policy_text] eqn:Hp;
    try discriminate.
  - intro H. injection H as <-. right. right.
    exact (policy_of_escaped json_loads (conf s) e0 Hp).
  - destruct (policy_summary policy_text) as [[k|]|e'] eqn:Hs;
      try discriminate.
    intro H. injection H as <-.
    destruct (policy_summary_raises _ _ Hs) as [->| ->]; auto.
Qed.

(** X2: the scan of a statement reads its [Principal] and its [Condition]
    and nothing else: two statement mappings that agree on these two keys
    get the same result ([Effect], [Action], [Sid] are never looked at, so a
    [Deny] statement for ["*"] fails like an [Allow] one). *)
Theorem X2_statement_reads_principal_and_condition
    (i : nat) (d1 d2 : dict) (s : store) :
  lookup "Principal" d1 = lookup "Principal" d2 ->
  lookup "Condition" d1 = lookup "Condition" d2 ->
  scan_statement i (VDict d1) s = scan_statement i (VDict d2) s.
Proof.
  intros Hp Hc. rewrite !scan_statement_run.
  rewrite (statement_summary_reads i d1 d2 Hp Hc). reflexivity.
Qed.

(** X3: on a working document that is a mapping with a [Statement]
    sequence, the call returns [PASSED] exactly when every statement is
    safe: without a [Principal], or with an iterable block that holds no
    ["*"] entry or comes with a qualifying condition. *)
Theorem X3_passed_iff_all_safe (s : store) (d : dict) (statements : list value) :
  policy_of json_loads (conf s) = Document (VDict d) ->
  lookup "Statement" d = Some (VList statements) ->
  (fst (scan_resource_conf json_loads match_sls_var s) = Return PASSED
   <-> forallb safe statements = true).
Proof.
  intros Hdoc Hst. rewrite scan_resource_conf_run. cbn [fst].
  unfold summary. rewrite Hdoc. cbn [policy_summary]. rewrite Hst.
  split.
  - destruct (statements_summary 0 statements) as [[k|]|e] eqn:Hs;
      try discriminate.
    intros _. exact (statements_summary_none_safe statements 0 Hs).
  - intro H. rewrite (statements_summary_all_safe statements 0 H).
    reflexivity.
Qed.

(** X4: when [Principal] is a mapping without an [AWS] key the loop goes
    through its keys: unless ["*"] is one of them the statement is skipped,
    whatever the values are (a wildcard under [Service] is not seen) and
    whatever the [Condition] is. *)
Theorem X4_principal_mapping_values_not_read
    (i : nat) (d p : dict) (s : store) :
  lookup "Principal" d = Some (VDict p) ->
  lookup "AWS" p = None ->
  mem "*" (map fst p) = false ->
  scan_statement i (VDict d) s = (Return None, s).
Proof.
  intros Hp Ha Hk. rewrite scan_statement_run.
  unfold statement_summary, scanned_block. rewrite Hp, Ha.
  cbn [iterate].
  pose proof (first_star_keys p) as Hf. rewrite Hk in Hf.
  destruct (first_star (map (fun kv => VStr (fst kv)) p)); [discriminate|].
  reflexivity.
Qed.

(** X5: after every call, also one that raises, [self.evaluated_keys] holds
    exactly one key, and it is the default key unless the call returned
    [FAILED]: the keys of an earlier call never survive. *)
Theorem X5_one_evaluated_key (s : store) :
  let r := scan_resource_conf json_loads match_sls_var s in
  (exists k : string, evaluated_keys (snd r) = [k])
  /\ (fst r <> Return FAILED ->
      evaluated_keys (snd r) = ["Properties/RepositoryPolicyText/Statement"]).
Proof.
  cbv zeta. rewrite scan_resource_conf_run. cbn [fst snd evaluated_keys].
  unfold summary.
  destruct (policy_of json_loads (conf s)) as [|str msg|e0|policy_text];
    cbn [fst snd]; try (split; [eexists|intros _]; reflexivity).
  destruct (policy_summary policy_text) as [[k|]|e]; cbn [fst snd];
    try (split; [eexists|intros _]; reflexivity).
  split; [eexists; reflexivity|]. intro H. exfalso. apply H. reflexivity.
Qed.

(** X6: a call never changes [self.entity_path] and only appends to the
    log: exactly one record when it returns [UNKNOWN], none otherwise. *)
Theorem X6_logs_once_iff_unknown (s : store) :
  let r := scan_resource_conf json_loads match_sls_var s in
  entity_path (snd r) = entity_path s
  /\ exists records : list (level * string),
       logged (snd r) = (logged s ++ records)%list
       /\ (fst r = Return UNKNOWN ->
           exists (lv : level) (msg : string), records = [(lv, msg)])
       /\ (fst r <> Return UNKNOWN -> records = []).
Proof.
  cbv zeta. rewrite scan_resource_conf_run. cbn [fst snd entity_path logged].
  split; [reflexivity|].
  exists (diagnostics json_loads match_sls_var (conf s) (entity_path s)).
  split; [reflexivity|]. unfold summary, diagnostics.
  destruct (policy_of json_loads (conf s)) as [|str msg|e0|policy_text];
    cbn [fst].
  - split; [discriminate|reflexivity].
  - split; [|intro H; exfalso; apply H; reflexivity].
    intros _. destruct (match_sls_var str); eauto.
  - split; [discriminate|reflexivity].
  - destruct (policy_summary policy_text) as [[k|]|e]; cbn [fst];
      (split; [discriminate|reflexivity]).
Qed.

(** X7: a non-empty string that [json.loads] parses to a non-empty value
    that is not a string gets the verdict and the evaluated keys of that
    value given as the structured [RepositoryPolicyText]. *)
Theorem X7_string_policy_as_structured (s1 s2 : store) (p1 p2 : dict)
    (str : string) (v : value) :
  lookup "Properties" (conf s1) = Some (VDict p1) ->
  lookup "RepositoryPolicyText" p1 = Some (VStr str) ->
  str <> "" ->
  json_loads str = Parsed v ->
  lookup "Properties" (conf s2) = Some (VDict p2) ->
  lookup "RepositoryPolicyText" p2 = Some v ->
  truthy v = true ->
  isinstance_str v = false ->
  fst (scan_resource_conf json_loads match_sls_var s1)
  = fst (scan_resource_conf json_loads match_sls_var s2)
  /\ evaluated_keys (snd (scan_resource_conf json_loads match_sls_var s1))
     = evaluated_keys (snd (scan_resource_conf json_loads match_sls_var s2)).
Proof.
  intros H1 T1 Hne Hj H2 T2 Hy Hs.
  rewrite !scan_resource_conf_run. cbn [fst snd evaluated_keys].
  unfold summary. rewrite !policy_of_reads, H1, T1, H2, T2, Hy, Hj.
  assert (Ht : truthy (VStr str) = true).
  { cbn [truthy]. apply String.eqb_neq in Hne. rewrite Hne. reflexivity. }
  rewrite Ht. destruct v; try discriminate; split; reflexivity.
Qed.

(** X8: a non-empty string that [json.loads] parses to anything but a
    mapping raises [AttributeError] at [policy_text.keys()], with the
    default key and nothing logged; this holds for [null], [[]], [0] and
    [false] too, which pass when they are given as structured values,
    because the emptiness test of line 33 runs before the parse only. *)
Theorem X8_string_parsed_to_non_mapping (s : store) (properties : dict)
    (str : string) (v : value) :
  lookup "Properties" (conf s) = Some (VDict properties) ->
  lookup "RepositoryPolicyText" properties = Some (VStr str) ->
  str <> "" ->
  json_loads str = Parsed v ->
  isinstance_dict v = false ->
  scan_resource_conf json_loads match_sls_var s
  = (Raise AttributeError,
     mkStore (conf s) ["Properties/RepositoryPolicyText/Statement"]
             (entity_path s) (logged s)).
Proof.
  intros Hp Ht Hne Hj Hd.
  assert (Hy : truthy (VStr str) = true).
  { cbn [truthy]. apply String.eqb_neq in Hne. rewrite Hne. reflexivity. }
  apply run_of_summary.
  - unfold summary. rewrite policy_of_reads, Hp, Ht, Hy, Hj.
    destruct v; try discriminate; reflexivity.
  - unfold diagnostics. rewrite policy_of_reads, Hp, Ht, Hy, Hj.
    reflexivity.
Qed.

(** X9: the call reads the configuration at
    [Properties.RepositoryPolicyText] only: two configurations whose
    [Properties] are mappings with the same policy text get the same verdict
    and the same evaluated keys. *)
Theorem X9_reads_policy_text_only (s1 s2 : store) (p1 p2 : dict) :
  lookup "Properties" (conf s1) = Some (VDict p1) ->
  lookup "Properties" (conf s2) = Some (VDict p2) ->
  lookup "RepositoryPolicyText" p1 = lookup "RepositoryPolicyText" p2 ->
  fst (scan_resource_conf json_loads match_sls_var s1)
  = fst (scan_resource_conf json_loads match_sls_var s2)
  /\ evaluated_keys (snd (scan_resource_conf json_loads match_sls_var s1))
     = evaluated_keys (snd (scan_resource_conf json_loads match_sls_var s2)).
Proof.
  intros H1 H2 Ht.
  rewrite !scan_resource_conf_run. cbn [fst snd evaluated_keys].
  unfold summary. rewrite !policy_of_reads, H1, H2, Ht. split; reflexivity.
Qed.

(** X10: as the loop runs, a statement without a [Condition] whose scanned
    block is a bare string returns [FAILED] exactly when the string holds
    the character [*], with the key of the statement ([/AWS] added when the
    block came from under [AWS]) and no entry index. *)
Theorem X10_bare_string_fails_on_any_star (i : nat) (d : dict)
    (str : string) (aws : bool) (s : store) :
  scanned_block (VDict d) = Return (Some (VStr str, aws)) ->
  lookup "Condition" d = None ->
  scan_statement i (VDict d) s
  = if is_substring "*" str
    then (Return (Some FAILED),
          with_keys [if aws then statement_key i ++ "/AWS"
                     else statement_key i] s)
    else (Return None, s).
Proof.
  intros Hb Hc. rewrite scan_statement_run. unfold statement_summary.
  rewrite Hb. cbn [iterate]. rewrite (check_no_condition d Hc).
  rewrite <- first_star_chars.
  destruct (first_star (chars str)); reflexivity.
Qed.

(** X11: the key of line 52-61 identifies the location: two reported keys
    are equal only for the same statement index, the same [AWS] suffix, the
    same kind of block and, for a sequence, the same entry index. *)
Theorem X11_key_identifies_location (i i' : nat) (aws aws' : bool)
    (block block' : value) (j j' : nat) :
  failed_key i aws block j = failed_key i' aws' block' j' ->
  i = i' /\ aws = aws'
  /\ isinstance_list block = isinstance_list block'
  /\ (isinstance_list block = true -> j = j').
Proof.
  rewrite !failed_key_tail. intro H.
  apply append_inj_l in H.
  change ("]/Principal" ++ key_tail aws (isinstance_list block) j)
    with (String "]" ("/Principal" ++ key_tail aws (isinstance_list block) j))
    in H.
  change ("]/Principal" ++ key_tail aws' (isinstance_list block') j')
    with (String "]" ("/Principal" ++ key_tail aws' (isinstance_list block') j'))
    in H.
  destruct (digits_prefix_inj _ _ _ _ (digits_of_nat i) (digits_of_nat i') H)
    as [Hi Ht].
  apply append_inj_l in Ht.
  destruct (key_tail_inj _ _ _ _ _ _ Ht) as [Ha [Hl Hj]].
  split; [exact (str_of_nat_inj i i' Hi)|auto].
Qed.

(** X12: a call returns [FAILED] only as C5 describes: the working
    document is a mapping whose [Statement] sequence splits into safe
    statements, a statement whose entries split into entries other than
    ["*"] and a ["*"], with no qualifying condition, and the rest; the one
    evaluated key is that of this statement and this entry. *)
Theorem X12_failed_reports_first (s : store) :
  fst (scan_resource_conf json_loads match_sls_var s) = Return FAILED ->
  exists (d : dict) (before later : list value) (statement block : value)
         (clean rest : list value),
    policy_of json_loads (conf s) = Document (VDict d)
    /\ lookup "Statement" d = Some (VList (before ++ statement :: later))
    /\ forallb safe before = true
    /\ scanned_block statement
       = Return (Some (block, principal_has_aws statement))
    /\ iterate block = Return (clean ++ VStr "*" :: rest)%list
    /\ existsb (fun p => eq_str p "*") clean = false
    /\ check_for_constrained_condition statement = Return false
    /\ evaluated_keys (snd (scan_resource_conf json_loads match_sls_var s))
       = [failed_key (List.length before) (principal_has_aws statement)
                     block (List.length clean)].
Proof.
  rewrite scan_resource_conf_run. cbn [fst snd evaluated_keys].
  unfold summary.
  destruct (policy_of json_loads (conf s)) as [|str msg|e0|policy_text];
    try discriminate.
  destruct (policy_summary policy_text) as [[k|]|e] eqn:Hs;
    try discriminate.
  intros _. cbn [snd]. unfold policy_summary in Hs.
  destruct policy_text as [| | | | | |d]; try discriminate.
  destruct (lookup "Statement" d) as [[| | | | |statements|]|] eqn:Hl;
    try discriminate.
  destruct (statements_summary_first statements 0 k Hs)
    as [before [later [statement [-> [Hsafe Hk]]]]].
  cbn [Nat.add] in Hk.
  destruct (statement_summary_some _ statement k Hk)
    as [block [aws [entries [j [Hb [Hi [Hj [Hc ->]]]]]]]].
  pose proof (scanned_block_aws statement block aws Hb) as Ha. subst aws.
  destruct (first_star_split entries j Hj) as [clean [rest [-> [Hclean <-]]]].
  exists d, before, later, statement, block, clean, rest.
  repeat split; assumption || reflexivity.
Qed.

(** X13: the [Condition] is read only when an entry equals ["*"]: a
    statement whose scanned block is iterable and holds no ["*"] is
    skipped, whatever its [Condition] is. *)
Theorem X13_condition_read_only_on_wildcard (i : nat) (statement block : value)
    (aws : bool) (entries : list value) (s : store) :
  scanned_block statement = Return (Some (block, aws)) ->
  iterate block = Return entries ->
  existsb (fun p => eq_str p "*") entries = false ->
  scan_statement i statement s = (Return None, s).
Proof.
  intros Hb Hi He. rewrite scan_statement_run. unfold statement_summary.
  rewrite Hb, Hi. pose proof (first_star_existsb entries) as Hf.
  rewrite He in Hf. destruct (first_star entries); [discriminate|].
  reflexivity.
Qed.

(** X14: a statement with a ["*"] entry whose [Condition] is present but
    neither a string, a sequence nor a mapping (an empty [Condition:] of a
    YAML template is [None]) makes the scan raise [TypeError]. *)
Theorem X14_wildcard_with_unreadable_condition (i : nat) (d : dict)
    (block condition : value) (aws : bool) (entries : list value) (s : store) :
  scanned_block (VDict d) = Return (Some (block, aws)) ->
  iterate block = Return entries ->
  existsb (fun p => eq_str p "*") entries = true ->
  lookup "Condition" d = Some condition ->
  iterable condition = false ->
  scan_statement i (VDict d) s = (Raise TypeError, s).
Proof.
  intros Hb Hi He Hc Hn. rewrite scan_statement_run. unfold statement_summary.
  rewrite Hb, Hi. pose proof (first_star_existsb entries) as Hf.
  rewrite He in Hf. destruct (first_star entries); [|discriminate].
  rewrite check_reads_condition, Hc.
  destruct condition; try discriminate; reflexivity.
Qed.

End Further.

(** ** The theorems on the sample configurations *)

Lemma C1_witness :
  FAILED = FAILED <->
  has_open_wildcard sample_json_loads
    (resource (policy [allow (VDict [("AWS", VStr "*")])])) = true.
Proof.
  exact (proj1 (proj2 (C1_failed_iff_open_wildcard sample_json_loads
                         sample_match_sls_var
                         (fresh (resource
                                   (policy [allow (VDict [("AWS", VStr "*")])])))
                         eq_refl)
                  FAILED eq_refl)).
Defined.

(** A statement whose [Principal] is null stops the scan with [TypeError]
    before it reaches the open wildcard of the second statement. *)
Lemma C1_counterexample :
  has_open_wildcard sample_json_loads
    (resource (policy [allow VNone; allow (VStr "*")])) = true
  /\ fst (sample_Evaluate (resource (policy [allow VNone; allow (VStr "*")])))
     = Raise TypeError.
Proof. split; reflexivity. Qed.



Lemma C3_witness : check_for_constrained_condition shadowed = Return false.
Proof.
  exact (proj2 (C3_constrained_condition shadowed) _ _ _
           eq_refl eq_refl eq_refl eq_refl).
Defined.


Lemma C6_witness :
  sample_Evaluate (resource (VStr "${self:custom.policy}"))
  = (Return UNKNOWN,
     mkStore (resource (VStr "${self:custom.policy}"))
       ["Properties/RepositoryPolicyText/Statement"]
       "AWS::ECR::Repository.repo"
       [(INFO,
         "Encountered variable expression ${self:custom.policy} in resource $AWS::ECR::Repository.repo")]).
Proof.
  refine (C6_parse_failure_unknown sample_json_loads sample_match_sls_var
            (fresh (resource (VStr "${self:custom.policy}")))
            [("RepositoryName", VStr "repo");
             ("RepositoryPolicyText", VStr "${self:custom.policy}")]
            "${self:custom.policy}"
            "Expecting value: line 1 column 1 (char 0)"
            eq_refl eq_refl _ eq_refl).
  discriminate.
Defined.

(** The empty string is a string [json.loads] rejects, and the call returns
    [PASSED] on it: line 33 returns before the string is parsed. *)
Lemma C6_counterexample :
  sample_json_loads ""
  = JSONDecodeError "Expecting value: line 1 column 1 (char 0)"
  /\ sample_Evaluate (resource (VStr ""))
     = (Return PASSED,
        mkStore (resource (VStr ""))
          ["Properties/RepositoryPolicyText/Statement"]
          "AWS::ECR::Repository.repo" []).
Proof. split; reflexivity. Qed.

Lemma C7_witness :
  sample_Evaluate (resource (VDict [("Version", VStr "2012-10-17")]))
  = (Return PASSED,
     mkStore (resource (VDict [("Version", VStr "2012-10-17")]))
       ["Properties/RepositoryPolicyText/Statement"]
       "AWS::ECR::Repository.repo" []).
Proof.
  exact (C7_passed_by_default sample_json_loads sample_match_sls_var
           (fresh (resource (VDict [("Version", VStr "2012-10-17")])))
           (or_intror (or_intror
              (ex_intro _ [("Version", VStr "2012-10-17")]
                 (conj eq_refl (or_introl eq_refl)))))).
Defined.


Lemma C10_witness :
  fst (sample_Evaluate (resource (policy [constrained; allow (VStr "*")])))
  <> Return UNKNOWN
  /\ (shaped_document (policy [constrained; allow (VStr "*")]) = true ->
      fst (sample_Evaluate (resource (policy [constrained; allow (VStr "*")])))
      = Return PASSED
      \/ fst (sample_Evaluate
                (resource (policy [constrained; allow (VStr "*")])))
         = Return FAILED).
Proof.
  exact (C10_structured_never_unknown sample_json_loads sample_match_sls_var
           (fresh (resource (policy [constrained; allow (VStr "*")])))
           [("RepositoryName", VStr "repo");
            ("RepositoryPolicyText", policy [constrained; allow (VStr "*")])]
           (policy [constrained; allow (VStr "*")])
           eq_refl eq_refl eq_refl eq_refl).
Defined.

(** A structured policy whose statement is a string: the call raises, so it
    resolves to neither [PASSED] nor [FAILED]. *)
Lemma C10_counterexample :
  truthy (policy [VStr "Allow"]) = true
  /\ isinstance_str (policy [VStr "Allow"]) = false
  /\ fst (sample_Evaluate (resource (policy [VStr "Allow"])))
     = Raise AttributeError.
Proof. repeat split; reflexivity. Qed.

Lemma X1_witness :
  RecursionError = AttributeError \/ RecursionError = TypeError
  \/ exists (properties : dict) (str : string),
       lookup "Properties" (resource (VStr deep_nesting))
       = Some (VDict properties)
       /\ lookup "RepositoryPolicyText" properties = Some (VStr str)
       /\ sample_json_loads_limits str = JSONRaises RecursionError.
Proof.
  refine (X1_raises_attribute_or_type_error sample_json_loads_limits
            sample_match_sls_var (fresh (resource (VStr deep_nesting)))
            RecursionError _).
  vm_compute. reflexivity.
Defined.

Lemma X2_witness :
  scan_statement 0 (VDict [("Effect", VStr "Allow"); ("Principal", VStr "*")])
    (fresh (resource VNone))
  = scan_statement 0 (VDict deny_all) (fresh (resource VNone)).
Proof.
  exact (X2_statement_reads_principal_and_condition 0
           [("Effect", VStr "Allow"); ("Principal", VStr "*")] deny_all
           (fresh (resource VNone)) eq_refl eq_refl).
Defined.

Lemma X3_witness :
  fst (sample_Evaluate
         (resource (policy [constrained;
                            allow (VDict [("AWS", VStr "111111111111")])])))
  = Return PASSED
  <-> forallb safe [constrained; allow (VDict [("AWS", VStr "111111111111")])]
      = true.
Proof.
  exact (X3_passed_iff_all_safe sample_json_loads sample_match_sls_var
           (fresh (resource (policy [constrained;
                       allow (VDict [("AWS", VStr "111111111111")])])))
           [("Version", VStr "2012-10-17");
            ("Statement",
             VList [constrained; allow (VDict [("AWS", VStr "111111111111")])])]
           [constrained; allow (VDict [("AWS", VStr "111111111111")])]
           eq_refl eq_refl).
Defined.

Lemma X4_witness :
  scan_statement 3 (VDict any_service) (fresh (resource VNone))
  = (Return None, fresh (resource VNone)).
Proof.
  exact (X4_principal_mapping_values_not_read 3 any_service
           [("Service", VStr "*")] (fresh (resource VNone))
           eq_refl eq_refl eq_refl).
Defined.

Lemma X7_witness :
  fst (scan_resource_conf sample_json_loads_policy sample_match_sls_var
         (fresh (resource (VStr wildcard_policy_json))))
  = fst (scan_resource_conf sample_json_loads_policy sample_match_sls_var
           (fresh (resource
                     (VDict [("Statement",
                              VList [VDict [("Principal", VStr "*")]])]))))
  /\ evaluated_keys
       (snd (scan_resource_conf sample_json_loads_policy sample_match_sls_var
               (fresh (resource (VStr wildcard_policy_json)))))
     = evaluated_keys
         (snd (scan_resource_conf sample_json_loads_policy sample_match_sls_var
                 (fresh (resource
                           (VDict [("Statement",
                                    VList [VDict [("Principal", VStr "*")]])]))))).
Proof.
  refine (X7_string_policy_as_structured sample_json_loads_policy
            sample_match_sls_var
            (fresh (resource (VStr wildcard_policy_json)))
            (fresh (resource
                      (VDict [("Statement",
                               VList [VDict [("Principal", VStr "*")]])])))
            [("RepositoryName", VStr "repo");
             ("RepositoryPolicyText", VStr wildcard_policy_json)]
            [("RepositoryName", VStr "repo");
             ("RepositoryPolicyText",
              VDict [("Statement", VList [VDict [("Principal", VStr "*")]])])]
            wildcard_policy_json
            (VDict [("Statement", VList [VDict [("Principal", VStr "*")]])])
            eq_refl eq_refl _ eq_refl eq_refl eq_refl eq_refl eq_refl).
  discriminate.
Defined.

Lemma X8_witness :
  sample_Evaluate (resource (VStr "[1]"))
  = (Raise AttributeError,
     mkStore (resource (VStr "[1]"))
       ["Properties/RepositoryPolicyText/Statement"]
       "AWS::ECR::Repository.repo" []).
Proof.
  refine (X8_string_parsed_to_non_mapping sample_json_loads
            sample_match_sls_var (fresh (resource (VStr "[1]")))
            [("RepositoryName", VStr "repo");
             ("RepositoryPolicyText", VStr "[1]")]
            "[1]" (VList [VInt 1]) eq_refl eq_refl _ eq_refl eq_refl).
  discriminate.
Defined.

Lemma X9_witness :
  fst (sample_Evaluate (resource (policy [allow (VStr "*")])))
  = fst (sample_Evaluate
           [("Properties",
             VDict [("RepositoryPolicyText", policy [allow (VStr "*")]);
                    ("ImageTagMutability", VStr "IMMUTABLE")])])
  /\ evaluated_keys
       (snd (sample_Evaluate (resource (policy [allow (VStr "*")]))))
     = evaluated_keys
         (snd (sample_Evaluate
                 [("Properties",
                   VDict [("RepositoryPolicyText", policy [allow (VStr "*")]);
                          ("ImageTagMutability", VStr "IMMUTABLE")])])).
Proof.
  exact (X9_reads_policy_text_only sample_json_loads sample_match_sls_var
           (fresh (resource (policy [allow (VStr "*")])))
           (fresh [("Properties",
                    VDict [("RepositoryPolicyText", policy [allow (VStr "*")]);
                           ("ImageTagMutability", VStr "IMMUTABLE")])])
           [("RepositoryName", VStr "repo");
            ("RepositoryPolicyText", policy [allow (VStr "*")])]
           [("RepositoryPolicyText", policy [allow (VStr "*")]);
            ("ImageTagMutability", VStr "IMMUTABLE")]
           eq_refl eq_refl eq_refl).
Defined.

Lemma X10_witness :
  scan_statement 0
    (VDict [("Principal", VDict [("AWS", VStr "arn:aws:iam::*:root")])])
    (fresh (resource VNone))
  = (Return (Some FAILED),
     with_keys ["Properties/RepositoryPolicyText/Statement/[0]/Principal/AWS"]
       (fresh (resource VNone))).
Proof.
  exact (X10_bare_string_fails_on_any_star 0
           [("Principal", VDict [("AWS", VStr "arn:aws:iam::*:root")])]
           "arn:aws:iam::*:root" true (fresh (resource VNone))
           eq_refl eq_refl).
Defined.

Lemma X11_witness :
  12 = 12 /\ true = true
  /\ isinstance_list (VList []) = isinstance_list (VList [VStr "*"])
  /\ (isinstance_list (VList []) = true -> 3 = 3).
Proof.
  exact (X11_key_identifies_location 12 12 true true
           (VList []) (VList [VStr "*"]) 3 3 eq_refl).
Defined.

Lemma X12_witness :
  exists (d : dict) (before later : list value) (statement block : value)
         (clean rest : list value),
    policy_of sample_json_loads crowded = Document (VDict d)
    /\ lookup "Statement" d = Some (VList (before ++ statement :: later))
    /\ forallb safe before = true
    /\ scanned_block statement
       = Return (Some (block, principal_has_aws statement))
    /\ iterate block = Return (clean ++ VStr "*" :: rest)%list
    /\ existsb (fun p => eq_str p "*") clean = false
    /\ check_for_constrained_condition statement = Return false
    /\ evaluated_keys (snd (sample_Evaluate crowded))
       = [failed_key (List.length before) (principal_has_aws statement)
                     block (List.length clean)].
Proof.
  exact (X12_failed_reports_first sample_json_loads sample_match_sls_var
           (fresh crowded) eq_refl).
Defined.

Lemma X13_witness :
  scan_statement 1
    (VDict [("Principal", VDict [("AWS", VList [VStr "111111111111"])]);
            ("Condition", VInt 0)])
    (fresh (resource VNone))
  = (Return None, fresh (resource VNone)).
Proof.
  exact (X13_condition_read_only_on_wildcard 1
           (VDict [("Principal", VDict [("AWS", VList [VStr "111111111111"])]);
                   ("Condition", VInt 0)])
           (VList [VStr "111111111111"]) true [VStr "111111111111"]
           (fresh (resource VNone)) eq_refl eq_refl eq_refl).
Defined.

Lemma X14_witness :
  scan_statement 0 (VDict empty_condition) (fresh (resource VNone))
  = (Raise TypeError, fresh (resource VNone)).
Proof.
  exact (X14_wildcard_with_unreadable_condition 0 empty_condition
           (VStr "*") VNone true [VStr "*"] (fresh (resource VNone))
           eq_refl eq_refl eq_refl eq_refl eq_refl).
Defined.
